(** * The anomaly view of the Gordo ML server

    A shallow embedding of [gordo_components/server/views/anomaly.py]:
    the request handler [AnomalyView._create_anomaly_response], its two
    HTTP entry points [post] and [get], and the pieces of Python and Flask
    it leans on (floats and their [.4f] formatting, dictionaries,
    exceptions, the response pair).  Effects are threaded explicitly
    through a small state-and-exception monad over a [World] that holds the
    performance counter and the log of calls made to the served model. *)

From Stdlib Require Import ZArith String Ascii List DecimalString.
From Stdlib Require Import Floats.SpecFloat.
From Stdlib Require DecimalN.
From stdpp Require Import base gmap strings list.

Local Open Scope string_scope.
Local Open Scope Z_scope.

(** ** Binary floating point formats

    Notions used to bound the operations of [SpecFloat] in a format with
    [prec] bits of mantissa and infinities at exponent [emax]. *)
Module Binary.

(** The largest mantissa at exponent [e] whose value is below [2^emax]. *)
Definition ceiling (prec emax e : Z) : Z :=
  (2 ^ prec - 1) * 2 ^ (emax - prec - e).

(** [rec] is [m0] shifted right by [k] bits: it holds the quotient, and no
    bit is set in its round and sticky positions when nothing but zeros was
    shifted out. *)
Definition shifted (m0 k : Z) (rec : shr_record) : Prop :=
  0 ≤ k ∧ shr_m rec = m0 / 2 ^ k
  ∧ (m0 mod 2 ^ k = 0 → shr_r rec = false ∧ shr_s rec = false).

(** A float that is zero or positive, finite, and in the format. *)
Definition nonneg_finite (prec emax : Z) (x : spec_float) : bool :=
  match x with
  | S754_zero _ => true
  | S754_finite false m e => bounded prec emax m e
  | _ => false
  end.

End Binary.

(** ** Python floats

    A Python [float] is an IEEE 754 binary64 number: [spec_float] with a
    53 bit mantissa and infinities at exponent 1024. *)
Module PyFloat.

Definition float : Type := spec_float.

Definition prec : Z := 53.
Definition emax : Z := 1024.

(** [a - b] on floats. *)
Definition sub (a b : float) : float := SFsub prec emax a b.

Definition is_finite (x : float) : bool :=
  match x with
  | S754_zero _ | S754_finite _ _ _ => true
  | S754_infinity _ | S754_nan => false
  end.

(** What a reading of a clock is: a binary64 number that is finite and not
    negative. *)
Definition valid_reading (x : float) : bool :=
  Binary.nonneg_finite prec emax x.

(** The quotient [num / den] rounded to the nearest integer, ties to the
    even one: the rounding the [f] presentation type applies to the exact
    binary value. *)
Definition round_half_even (num den : Z) : Z :=
  let q := num / den in
  let r := num mod den in
  match 2 * r ?= den with
  | Lt => q
  | Gt => q + 1
  | Eq => if Z.even q then q else q + 1
  end.

(** [m * 2^e * 10^4], rounded to an integer. *)
Definition scaled4 (m : positive) (e : Z) : Z :=
  match e with
  | Zneg p => round_half_even (Zpos m * 10000) (2 ^ Zpos p)
  | _ => Zpos m * 10000 * 2 ^ e
  end.

Definition digit_char (d : Z) : ascii := ascii_of_nat (48 + Z.to_nat d).

(** The decimal numeral of a natural number, without leading zeros. *)
Definition decimal (n : Z) : string :=
  NilZero.string_of_uint (N.to_uint (Z.to_N n)).

(** Four digits, zero padded on the left. *)
Definition pad4 (n : Z) : string :=
  String (digit_char (n / 1000 mod 10))
    (String (digit_char (n / 100 mod 10))
       (String (digit_char (n / 10 mod 10))
          (String (digit_char (n mod 10)) EmptyString))).

Definition sign (s : bool) : string := if s then "-" else "".

(** [f"{x:.4f}"]: fixed point notation with four digits after the point;
    the sign of a negative number is kept even when it rounds to zero, and
    the special values print as words. *)
Definition format_4f (x : float) : string :=
  match x with
  | S754_nan => "nan"
  | S754_infinity s => sign s +:+ "inf"
  | S754_zero s => sign s +:+ "0.0000"
  | S754_finite s m e =>
      let n := scaled4 m e in
      sign s +:+ decimal (n / 10000) +:+ "." +:+ pad4 (n mod 10000)
  end.

(** *** Reading a formatted number back *)

Definition is_digit (c : ascii) : bool :=
  let n := nat_of_ascii c in
  (Nat.leb 48 n) && (Nat.leb n 57).

Definition is_point (c : ascii) : bool := Ascii.eqb c ".".

Fixpoint all_chars (p : ascii -> bool) (s : string) : bool :=
  match s with
  | EmptyString => true
  | String c r => p c && all_chars p r
  end.

(** What follows the first decimal point of [s], if there is one. *)
Fixpoint after_point (s : string) : option string :=
  match s with
  | EmptyString => None
  | String c r => if is_point c then Some r else after_point r
  end.

(** [s] has a decimal point followed by exactly four characters, all of
    them digits. *)
Definition four_decimals (s : string) : bool :=
  match after_point s with
  | Some fr => Nat.eqb (String.length fr) 4 && all_chars is_digit fr
  | None => false
  end.

End PyFloat.

(** ** JSON values

    What [jsonify] can serialise: the values the handler stores in its
    response context.  Objects keep their keys in insertion order. *)
#[local] Set Warnings "-register-all".
Inductive json : Type :=
| JNull
| JInt (z : Z)
| JFloat (x : PyFloat.float)
| JStr (s : string)
| JArr (items : list json)
| JObj (members : list (string * json)).

(** ** Data frames *)
Module Pandas.

(** A frame with a flat column index, as [g.X] and [g.y]. *)
Record DataFrame := {
  columns : list string;
  values : list (list PyFloat.float)
}.

(** A cell of the anomaly frame: a number, or a timestamp in ISO 8601
    form with its offset. *)
Inductive cell :=
| Num (x : PyFloat.float)
| Timestamp (iso : string).

(** A column label with two levels: the top-level field and, for the
    fields that carry one column per tag, the tag name. *)
Definition label : Type := string * option string.

(** The frame the model's [anomaly] returns: two-level columns, one row
    per prediction window. *)
Record TabularResult := {
  labels : list label;
  rows : list (list cell)
}.

End Pandas.

Import Pandas.

(** ** [gordo_components.server.utils] *)
Module utils.

Definition cell_json (c : cell) : json :=
  match c with
  | Num x => JFloat x
  | Timestamp iso => JStr iso
  end.

(** The top-level fields of a column index, in order of first
    appearance. *)
Fixpoint fields_of (cols : list label) : list string :=
  match cols with
  | [] => []
  | (f, _) :: r => f :: filter (λ g, g ≠ f) (fields_of r)
  end.

(** The columns of [row] under the top-level field [f], with their
    second-level labels, in column order. *)
Fixpoint group (f : string) (cols : list label) (row : list cell)
  : list (option string * cell) :=
  match cols, row with
  | (f', sub) :: cols', c :: row' =>
      if decide (f' = f) then (sub, c) :: group f cols' row'
      else group f cols' row'
  | _, _ => []
  end.

(** A field is per-tag when one of its columns has a tag as its
    second-level label. *)
Definition per_tag (grp : list (option string * cell)) : bool :=
  existsb (λ sc, bool_decide (is_Some (fst sc))) grp.

Definition tag_members (grp : list (option string * cell))
  : list (string * json) :=
  omap (λ sc, (λ t, (t, cell_json (snd sc))) <$> fst sc) grp.

Definition field_value (grp : list (option string * cell)) : json :=
  if per_tag grp then JObj (tag_members grp)
  else match grp with
       | (_, c) :: _ => JArr [cell_json c]
       | [] => JNull
       end.

(** One Nested Record. *)
Definition record_of_row (cols : list label) (row : list cell) : json :=
  JObj (map (λ f, (f, field_value (group f cols row))) (fields_of cols)).

(** Modelled from the spec: [utils.multi_lvl_column_dataframe_to_dict]
    is imported by the view from [gordo_components/server/utils.py] and is
    not defined in the view's own file.  The spec's transformer
    (section 4.2) groups the columns by top-level field, classifies a
    field as per-tag or single-valued, and builds one Nested Record per
    row, in row order: a single-valued field holds its value wrapped in a
    list, a per-tag field a mapping from tag name to value in column
    order. *)
Definition multi_lvl_column_dataframe_to_dict (df : TabularResult)
  : list json :=
  map (record_of_row (labels df)) (rows df).

End utils.

(** ** Python run time: exceptions, the clock, the served model *)
Module Py.

(** An exception object: the names of the classes of its type, in method
    resolution order (its own class first), and its message. *)
Record exception := {
  exc_mro : list string;
  exc_message : string
}.

(** [except cls:] catches instances of [cls] and of its subclasses. *)
Definition isinstance (e : exception) (cls : string) : bool :=
  bool_decide (cls ∈ exc_mro e).

Definition AttributeError (msg : string) : exception :=
  {| exc_mro := ["AttributeError"; "Exception"; "BaseException"; "object"];
     exc_message := msg |}.

Definition TypeError (msg : string) : exception :=
  {| exc_mro := ["TypeError"; "Exception"; "BaseException"; "object"];
     exc_message := msg |}.

(** How a call ends. *)
Inductive result (A : Type) : Type :=
| Return (a : A)
| Raise (e : exception).
Arguments Return {A} a.
Arguments Raise {A} e.

(** A class, as [type(obj)] reports it. *)
Record type := {
  ty_module : string;
  ty_qualname : string
}.

(** [str(type(obj))], as an f-string interpolates it. *)
Definition type_str (t : type) : string :=
  "<class '" +:+
    (if decide (ty_module t = "builtins") then ty_qualname t
     else ty_module t +:+ "." +:+ ty_qualname t)
  +:+ "'>".

(** The served model, [current_app.model]: an opaque object of some
    class, with or without an [anomaly] attribute.  The operation takes
    [X], [y] and the keyword [frequency]. *)
Record Model := {
  model_type : type;
  anomaly : option (DataFrame → DataFrame → string → result TabularResult)
}.

(** One call of the model's anomaly operation. *)
Record invocation := {
  inv_X : DataFrame;
  inv_y : DataFrame;
  inv_frequency : string
}.

(** What a request handler can observe and change outside its own
    variables: the performance counter, as the sequence of its readings
    and the number of readings taken so far, and the calls of the model's
    anomaly operation made so far, oldest first. *)
Record World := {
  clock : nat → PyFloat.float;
  ticks : nat;
  anomaly_calls : list invocation
}.

(** Computations: a state transformer over [World] that returns or
    raises. *)
Definition M (A : Type) : Type := World → result A * World.

Definition ret {A} (a : A) : M A := λ w, (Return a, w).

Definition raise {A} (e : exception) : M A := λ w, (Raise e, w).

Definition bind {A B} (m : M A) (k : A → M B) : M B :=
  λ w, match m w with
       | (Return a, w') => k a w'
       | (Raise e, w') => (Raise e, w')
       end.

(** [try: a = body / except cls: return handler] followed by [rest a]:
    an exception of class [cls] raised by [body] ends the function with
    the handler's value; any other exception goes on to the caller. *)
Definition try_except_return {A B} (body : M A) (cls : string)
    (handler : M B) (rest : A → M B) : M B :=
  λ w, match body w with
       | (Return a, w') => rest a w'
       | (Raise e, w') =>
           if isinstance e cls then handler w' else (Raise e, w')
       end.

(** [timeit.default_timer()]: the next reading of the counter. *)
Definition default_timer : M PyFloat.float :=
  λ w, (Return (clock w (ticks w)),
        {| clock := clock w; ticks := S (ticks w);
           anomaly_calls := anomaly_calls w |}).

(** [model.anomaly(X, y, frequency=frequency)]: looking the attribute up
    raises [AttributeError] when the model has none; otherwise the
    operation is called, and the call is recorded. *)
Definition call_anomaly (model : Model) (X y : DataFrame)
    (frequency : string) : M TabularResult :=
  match anomaly model with
  | None =>
      raise (AttributeError
               ("'" +:+ ty_qualname (model_type model)
                +:+ "' object has no attribute 'anomaly'"))
  | Some op =>
      λ w, (op X y frequency,
            {| clock := clock w; ticks := ticks w;
               anomaly_calls :=
                 anomaly_calls w ++
                   [{| inv_X := X; inv_y := y;
                       inv_frequency := frequency |}] |})
  end.

(** [any(...)] over a list. *)
Definition any {A} (p : A → bool) (l : list A) : bool := existsb p l.

(** [d.pop(key, default)]: the value removed, and the dictionary left. *)
Definition dict_pop {V} (key : string) (default : V) (d : gmap string V)
  : V * gmap string V :=
  (from_option id default (d !! key), delete key d).

End Py.

Import Py.

Notation "'let!' x ':=' m 'in' k" := (bind m (λ x, k))
  (at level 10, x name, m at level 100, k at level 200,
   format "'let!'  x  :=  m  in '//' k").

(** ** Flask *)
Module Flask.

(** A response: the serialised JSON object and the HTTP status code. *)
Record Response := {
  body : gmap string json;
  status : Z
}.

(** [jsonify(d)] serialises the dictionary as it is when called; what
    happens to [d] afterwards does not reach the serialised body. *)
Definition jsonify (d : gmap string json) : gmap string json := d.

(** The first word of a status line, leading blanks skipped. *)
Fixpoint skip_blanks (s : string) : string :=
  match s with
  | String c r => if Ascii.eqb c " " then skip_blanks r else s
  | EmptyString => s
  end.

Fixpoint first_word (s : string) : string :=
  match s with
  | String c r =>
      if Ascii.eqb c " " then EmptyString else String c (first_word r)
  | EmptyString => EmptyString
  end.

(** The number a run of decimal digits stands for, read onto [acc]. *)
Fixpoint numeral (acc : Z) (s : string) : option Z :=
  match s with
  | EmptyString => Some acc
  | String c r =>
      if PyFloat.is_digit c
      then numeral (10 * acc + (Z.of_nat (nat_of_ascii c) - 48)) r
      else None
  end.

(** The status code of a status line such as ["201"] or ["201 CREATED"]:
    the number its first word is the numeral of, and 0 when that word is
    not a numeral; an empty line has none. *)
Definition status_code_of_line (line : string) : option Z :=
  match first_word (skip_blanks line) with
  | EmptyString => None
  | word => Some (from_option id 0 (numeral 0 word))
  end.

(** [make_response(rv, status)] / [make_response((rv, status))].  The
    handler always passes an integer.  Flask also takes [None], which keeps
    the default status 200, and a status line; any other value is refused
    here with a [TypeError]. *)
Definition make_response (rv : gmap string json) (code : json)
  : M Response :=
  match code with
  | JInt z => ret {| body := rv; status := z |}
  | JNull => ret {| body := rv; status := 200 |}
  | JStr line =>
      match status_code_of_line line with
      | Some z => ret {| body := rv; status := z |}
      | None =>
          raise {| exc_mro := ["ValueError"; "Exception"; "BaseException";
                               "object"];
                   exc_message := "Empty status argument" |}
      end
  | _ => raise (TypeError "Invalid status argument")
  end.

(** [current_app]: the application, with the model it serves. *)
Record App := { model : Model }.

(** [g]: what [utils.extract_X_y] left for the request. *)
Record Globals := {
  X : DataFrame;
  y : option DataFrame
}.

End Flask.

Import Flask.

(** ** The view *)
Module AnomalyView.

Record SensorTag := {
  name : string;
  asset : option string
}.

(** The attributes of [BaseModelView] the handler reads. *)
Record View := {
  tags : list SensorTag;
  frequency : string
}.

(** The last two statements of the handler, from the filled context on:
    [make_response(jsonify(context), context.pop("status-code", 200))].
    The arguments are evaluated from left to right: the body is
    serialised first, the status popped second. *)
Definition respond (context : gmap string json) : M Response :=
  let rv := jsonify context in
  let '(code, context) := dict_pop "status-code" (JInt 200) context in
  make_response rv code.

Definition _create_anomaly_response (self : View) (current_app : App)
    (g : Globals) (start_time : option PyFloat.float) : M Response :=
  let! start_time :=
    match start_time with
    | None => default_timer
    | Some t => ret t
    end in
  match y g with
  | None =>
      let message : gmap string json :=
        {[ "message" :=
             JStr "Cannot perform anomaly without 'y' to compare against." ]} in
      make_response (jsonify message) (JInt 400)
  | Some g_y =>
      if negb (any (λ col, bool_decide (col ∈ columns g_y))
                   (map name (tags self)))
      then
        let message : gmap string json :=
          {[ "message" :=
               JStr "y is not a subset of X, cannot do anomaly detection" ]} in
        make_response (jsonify message) (JInt 400)
      else
        try_except_return
          (call_anomaly (model current_app) (X g) g_y (frequency self))
          "AttributeError"
          (let msg : gmap string json :=
             {[ "message" :=
                  JStr ("Model is not an AnomalyDetector, it is of type: "
                        +:+ type_str (model_type (model current_app))) ]} in
           make_response (jsonify msg) (JInt 422))
          (λ anomaly_df,
             let context : gmap string json := ∅ in
             let context :=
               <[ "data" :=
                    JArr (utils.multi_lvl_column_dataframe_to_dict
                            anomaly_df) ]> context in
             let! now := default_timer in
             let context :=
               <[ "time-seconds" :=
                    JStr (PyFloat.format_4f (PyFloat.sub now start_time)) ]>
                 context in
             respond context)
  end.

Definition post (self : View) (current_app : App) (g : Globals)
  : M Response :=
  let! start_time := default_timer in
  _create_anomaly_response self current_app g (Some start_time).

Definition get (self : View) (current_app : App) (g : Globals)
  : M Response :=
  let! start_time := default_timer in
  _create_anomaly_response self current_app g (Some start_time).

End AnomalyView.

Import AnomalyView.

(** ** Vocabulary of the statements *)

(** Some tag of the view names a column of [g_y]: the test of the second
    validation. *)
Definition shares_column (self : View) (g_y : DataFrame) : bool :=
  any (λ col, bool_decide (col ∈ columns g_y)) (map name (tags self)).

(** The two error bodies of the validations and the one of the
    capability check. *)
Definition missing_target : Response :=
  {| body := {[ "message" :=
                  JStr "Cannot perform anomaly without 'y' to compare against." ]};
     status := 400 |}.

Definition incompatible_target : Response :=
  {| body := {[ "message" :=
                  JStr "y is not a subset of X, cannot do anomaly detection" ]};
     status := 400 |}.

Definition unsupported_model (m : Model) : Response :=
  {| body := {[ "message" :=
                  JStr ("Model is not an AnomalyDetector, it is of type: "
                        +:+ type_str (model_type m)) ]};
     status := 422 |}.

(** [needle] occurs in [hay]. *)
Definition contains (needle hay : string) : Prop :=
  ∃ before after, hay = before +:+ needle +:+ after.

(** A successful request: [y] is there, shares a column with the tags, and
    the model's anomaly operation returns the frame [df]. *)
Definition Successful (self : View) (app : App) (g : Globals)
    (df : TabularResult) : Prop :=
  ∃ g_y op,
    y g = Some g_y ∧
    shares_column self g_y = true ∧
    anomaly (model app) = Some op ∧
    op (X g) g_y (frequency self) = Return df.

(** The start instant the handler uses and the world after it was fixed. *)
Definition started (start_time : option PyFloat.float) (w : World)
  : PyFloat.float * World :=
  match start_time with
  | None => (clock w (ticks w),
             {| clock := clock w; ticks := S (ticks w);
                anomaly_calls := anomaly_calls w |})
  | Some t => (t, w)
  end.

(** The elapsed time a successful request reports: the reading taken after
    the computation minus the start instant. *)
Definition elapsed (start_time : option PyFloat.float) (w : World)
  : PyFloat.float :=
  let '(t0, w0) := started start_time w in
  PyFloat.sub (clock w0 (ticks w0)) t0.

(** The start instant and the reading taken after the computation are
    readings of a clock. *)
Definition instants_ok (start_time : option PyFloat.float) (w : World)
  : bool :=
  let '(t0, w0) := started start_time w in
  PyFloat.valid_reading t0 && PyFloat.valid_reading (clock w0 (ticks w0)).

(** The world a successful request leaves behind. *)
Definition after_success (self : View) (g : Globals) (g_y : DataFrame)
    (start_time : option PyFloat.float) (w : World) : World :=
  let w0 := snd (started start_time w) in
  {| clock := clock w0; ticks := S (ticks w0);
     anomaly_calls :=
       anomaly_calls w0 ++
         [{| inv_X := X g; inv_y := g_y;
             inv_frequency := frequency self |}] |}.

(** The success envelope for the frame [df] and the elapsed time [dt]. *)
Definition envelope (df : TabularResult) (dt : PyFloat.float) : Response :=
  {| body :=
       <[ "time-seconds" := JStr (PyFloat.format_4f dt) ]>
         (<[ "data" := JArr (utils.multi_lvl_column_dataframe_to_dict df) ]> ∅);
     status := 200 |}.

(** ** Concrete requests, used to exercise the statements *)
Module Sample.

Definition f_1_5 : PyFloat.float :=
  S754_finite false 6755399441055744 (-52).
Definition f_0_25 : PyFloat.float :=
  S754_finite false 4503599627370496 (-54).
Definition f_1_33 : PyFloat.float :=
  S754_finite false 5989787504402760 (-52).

Definition view : View :=
  {| tags := [ {| name := "tag-0"; asset := None |};
               {| name := "tag-1"; asset := None |} ];
     frequency := "10T" |}.

Definition view_without_tags : View :=
  {| tags := []; frequency := "10T" |}.

Definition frame_X : DataFrame :=
  {| columns := ["tag-0"; "tag-1"]; values := [[f_1_5; f_0_25]] |}.

Definition frame_y : DataFrame :=
  {| columns := ["tag-1"; "tag-7"]; values := [[f_0_25; f_1_5]] |}.

Definition frame_y_disjoint : DataFrame :=
  {| columns := ["tag-5"]; values := [[f_0_25]] |}.

Definition table : TabularResult :=
  {| labels := [ ("start", None); ("end", None); ("total-anomaly", None);
                 ("tag-anomaly", Some "tag-0");
                 ("tag-anomaly", Some "tag-1") ];
     rows := [ [ Timestamp "2016-01-01T00:00:00+00:00";
                 Timestamp "2016-01-01T00:10:00+00:00";
                 Num f_1_33; Num f_1_5; Num f_0_25 ] ] |}.

Definition empty_table : TabularResult :=
  {| labels := labels table; rows := [] |}.

Definition detector : Model :=
  {| model_type := {| ty_module := "gordo_components.model.anomaly.diff";
                      ty_qualname := "DiffBasedAnomalyDetector" |};
     anomaly := Some (λ _ _ _, Return table) |}.

(** A detector that finds no prediction window. *)
Definition empty_detector : Model :=
  {| model_type := model_type detector;
     anomaly := Some (λ _ _ _, Return empty_table) |}.

Definition scaler : Model :=
  {| model_type := {| ty_module := "sklearn.preprocessing.data";
                      ty_qualname := "StandardScaler" |};
     anomaly := None |}.

(** A detector whose computation fails with a [ValueError]. *)
Definition ValueError (msg : string) : exception :=
  {| exc_mro := ["ValueError"; "Exception"; "BaseException"; "object"];
     exc_message := msg |}.

Definition failing_detector : Model :=
  {| model_type := model_type detector;
     anomaly := Some (λ _ _ _, Raise (ValueError "shapes not aligned")) |}.

(** A detector whose computation reads an attribute that was never set,
    as an unfitted estimator does. *)
Definition unfitted_error : exception :=
  AttributeError
    "'DiffBasedAnomalyDetector' object has no attribute 'scaler'".

Definition unfitted_detector : Model :=
  {| model_type := model_type detector;
     anomaly := Some (λ _ _ _, Raise unfitted_error) |}.

Definition globals : Globals := {| X := frame_X; y := Some frame_y |}.
Definition globals_no_y : Globals := {| X := frame_X; y := None |}.
Definition globals_disjoint : Globals :=
  {| X := frame_X; y := Some frame_y_disjoint |}.

(** A counter that advances by a quarter of a second per reading, up to
    one second. *)
Definition quarter_clock (n : nat) : PyFloat.float :=
  match n with
  | 0%nat => S754_zero false
  | 1%nat => S754_finite false 4503599627370496 (-54)
  | 2%nat => S754_finite false 4503599627370496 (-53)
  | 3%nat => S754_finite false 6755399441055744 (-53)
  | _ => S754_finite false 4503599627370496 (-52)
  end.

Definition world : World :=
  {| clock := quarter_clock; ticks := 0; anomaly_calls := [] |}.


(** A second world: the counter has been read three times and the model
    called once before. *)
Definition later_world : World :=
  {| clock := quarter_clock; ticks := 3;
     anomaly_calls :=
       [{| inv_X := frame_X; inv_y := frame_y;
           inv_frequency := "10T" |}] |}.

End Sample.

(** ** Reading a fixed point numeral *)
Module Numeral.

(** The value of a decimal digit. *)
Definition digit_value (c : ascii) : option Z :=
  if PyFloat.is_digit c then Some (Z.of_nat (nat_of_ascii c) - 48) else None.

(** Reads a run of digits, most significant first, onto [acc]. *)
Fixpoint read_digits (acc : Z) (s : string) : option Z :=
  match s with
  | EmptyString => Some acc
  | String c r =>
      match digit_value c with
      | Some d => read_digits (10 * acc + d) r
      | None => None
      end
  end.

(** What precedes the first decimal point of [s]. *)
Fixpoint before_point (s : string) : string :=
  match s with
  | EmptyString => EmptyString
  | String c r =>
      if PyFloat.is_point c then EmptyString else String c (before_point r)
  end.

(** Splits a leading minus sign off. *)
Definition strip_sign (s : string) : bool * string :=
  match s with
  | String c r => if Ascii.eqb c "-" then (true, r) else (false, s)
  | EmptyString => (false, s)
  end.

(** Reads [ddd.dddd], with or without a minus sign in front: the sign, and
    the number of ten-thousandths the digits stand for. *)
Definition read_fixed4 (s : string) : option (bool * Z) :=
  let '(neg, num) := strip_sign s in
  match PyFloat.after_point num with
  | Some fr =>
      if Nat.eqb (String.length fr) 4 then
        match read_digits 0 (before_point num), read_digits 0 fr with
        | Some i, Some f => Some (neg, i * 10000 + f)
        | _, _ => None
        end
      else None
  | None => None
  end.

(** The number a decimal numeral of the standard library stands for, read
    onto [acc]. *)
Fixpoint uint_value (acc : Z) (d : Decimal.uint) : Z :=
  match d with
  | Decimal.Nil => acc
  | Decimal.D0 l => uint_value (10 * acc) l
  | Decimal.D1 l => uint_value (10 * acc + 1) l
  | Decimal.D2 l => uint_value (10 * acc + 2) l
  | Decimal.D3 l => uint_value (10 * acc + 3) l
  | Decimal.D4 l => uint_value (10 * acc + 4) l
  | Decimal.D5 l => uint_value (10 * acc + 5) l
  | Decimal.D6 l => uint_value (10 * acc + 6) l
  | Decimal.D7 l => uint_value (10 * acc + 7) l
  | Decimal.D8 l => uint_value (10 * acc + 8) l
  | Decimal.D9 l => uint_value (10 * acc + 9) l
  end.

End Numeral.

(** ** Further vocabulary *)

(** The sign bit of a float. *)
Definition sign_bit (x : PyFloat.float) : bool :=
  match x with
  | S754_zero s | S754_infinity s | S754_finite s _ _ => s
  | S754_nan => false
  end.

(** [n] ten-thousandths is as near to the magnitude of the finite float [x]
    as a whole number of ten-thousandths can be: with [x] of magnitude
    [m / 2^p], twice the distance between [n] and [m * 10^4 / 2^p] is at most
    one. *)
Definition nearest_ten_thousandth (x : PyFloat.float) (n : Z) : Prop :=
  match x with
  | S754_zero _ => n = 0
  | S754_finite _ m (Zneg p) =>
      Z.abs (2 * (2 ^ Zpos p * n - Zpos m * 10000)) ≤ 2 ^ Zpos p
  | S754_finite _ m e => n = Zpos m * 2 ^ e * 10000
  | S754_infinity _ | S754_nan => False
  end.

(** [a <= b] on floats. *)
Definition float_le (a b : PyFloat.float) : bool := SFleb a b.

(** The two instants of a request are readings of a clock that does not go
    backwards, neither of them a negative zero. *)
Definition instants_monotone (start_time : option PyFloat.float) (w : World)
  : bool :=
  let '(t0, w0) := started start_time w in
  let now := clock w0 (ticks w0) in
  PyFloat.valid_reading t0 && PyFloat.valid_reading now
  && negb (sign_bit t0) && negb (sign_bit now)
  && float_le t0 now.

(** The call a request makes to the model's operation. *)
Definition the_call (self : View) (g : Globals) (g_y : DataFrame)
  : invocation :=
  {| inv_X := X g; inv_y := g_y; inv_frequency := frequency self |}.

(** The request passes both validations, with [g_y] as its target. *)
Definition Validated (self : View) (g : Globals) (g_y : DataFrame) : Prop :=
  y g = Some g_y ∧ shares_column self g_y = true.

(** ** The response models declared for the documentation *)
Module Docs.

(** The field types of [flask_restplus.fields] the declarations use. *)
Inductive field :=
| Float
| DateTime
| List (item : field).

(** [api.model(name, fields)]. *)
Record ApiModel := {
  model_name : string;
  model_fields : list (string * field)
}.

Definition API_MODEL_INPUT_POST : ApiModel :=
  {| model_name := "Prediction - Multiple Samples";
     model_fields := [("X", List (List Float))] |}.

Definition API_MODEL_OUTPUT_POST : ApiModel :=
  {| model_name := "Prediction - Output from POST";
     model_fields := [("output", List (List Float))] |}.

Definition API_MODEL_INPUT_GET : ApiModel :=
  {| model_name := "Prediction - Time range prediction";
     model_fields := [("start", DateTime); ("end", DateTime)] |}.

(** The model each method declares for its 200 answer, with
    [@api.response(200, "Success", ...)]: the same one for both. *)
Definition post_response_model : ApiModel := API_MODEL_OUTPUT_POST.
Definition get_response_model : ApiModel := API_MODEL_OUTPUT_POST.

End Docs.

(** ** Formatting: four digits after the point *)
Section Format.

Import PyFloat.

Let no_point (c : ascii) : bool := negb (is_point c).

Lemma append_nil (b : string) : "" +:+ b = b.
Proof. reflexivity. Qed.

Lemma append_cons (x : ascii) (a b : string) :
  String x a +:+ b = String x (a +:+ b).
Proof. reflexivity. Qed.

Lemma append_assoc (a b c : string) : (a +:+ b) +:+ c = a +:+ b +:+ c.
Proof.
  induction a as [|x a IH]; [reflexivity|].
  rewrite !append_cons, IH. reflexivity.
Qed.


(** The first point of [a ++ "." ++ b] is the one written out, when [a]
    has none. *)
Lemma after_point_app a b :
  all_chars no_point a = true →
  after_point (a +:+ "." +:+ b) = Some b.
Proof.
  induction a as [|c a IH]; [reflexivity|].
  rewrite append_cons. cbn [all_chars after_point].
  intros [Hc Ha]%andb_true_iff.
  unfold no_point in Hc. apply negb_true_iff in Hc. rewrite Hc. auto.
Qed.

Lemma string_of_uint_no_point d :
  all_chars no_point (NilEmpty.string_of_uint d) = true.
Proof. induction d; simpl; auto. Qed.

Lemma decimal_no_point n : all_chars no_point (decimal n) = true.
Proof.
  unfold decimal, NilZero.string_of_uint.
  destruct (N.to_uint (Z.to_N n)) eqn:E; try reflexivity;
    rewrite <- E; apply string_of_uint_no_point.
Qed.


Lemma digit_char_is_digit d :
  0 ≤ d < 10 → is_digit (digit_char d) = true.
Proof.
  intros Hd.
  assert (d = 0 ∨ d = 1 ∨ d = 2 ∨ d = 3 ∨ d = 4 ∨
          d = 5 ∨ d = 6 ∨ d = 7 ∨ d = 8 ∨ d = 9) as Hcases by lia.
  repeat (destruct Hcases as [-> | Hcases]; [reflexivity|]).
  subst d. reflexivity.
Qed.

Lemma pad4_digits n :
  String.length (pad4 n) = 4%nat ∧ all_chars is_digit (pad4 n) = true.
Proof.
  split; [reflexivity|].
  unfold pad4. cbn [all_chars].
  rewrite !digit_char_is_digit; [reflexivity|..];
    apply Z.mod_pos_bound; lia.
Qed.


(** The rounded quotient is an integer nearest to [num / den]. *)
Lemma round_half_even_nearest num den :
  0 < den →
  Z.abs (2 * (den * round_half_even num den - num)) ≤ den.
Proof.
  intros Hden. unfold round_half_even.
  pose proof (Z.div_mod num den ltac:(lia)) as Hdm.
  pose proof (Z.mod_pos_bound num den Hden) as Hr.
  destruct (Z.compare_spec (2 * (num mod den)) den) as [Heq|Hlt|Hgt];
    try destruct (Z.even (num / den)); lia.
Qed.


(** The special values have no decimal point at all. *)
Lemma format_4f_not_finite x :
  is_finite x = false → four_decimals (format_4f x) = false.
Proof.
  destruct x as [s|s| |s m e]; cbn [is_finite format_4f];
    try discriminate; intros _; try destruct s; reflexivity.
Qed.

End Format.

(** ** Differences of clock readings are finite *)
Section SubFinite.

Variables prec emax : Z.
Hypothesis Hprec : 0 < prec.
Hypothesis Hemax : prec < emax.

Local Abbreviation ceiling := (Binary.ceiling prec emax).
Local Abbreviation shifted := Binary.shifted.
Local Abbreviation nonneg_finite := (Binary.nonneg_finite prec emax).

Lemma ceiling_shift e n :
  0 <= n -> e + n <= emax - prec -> ceiling e = ceiling (e + n) * 2 ^ n.
Proof.
  intros Hn He. unfold Binary.ceiling.
  replace (emax - prec - e) with ((emax - prec - (e + n)) + n) by lia.
  rewrite Z.pow_add_r by lia. ring.
Qed.

Lemma ceiling_lt e : e <= emax - prec -> ceiling e < 2 ^ (emax - e).
Proof.
  intros He. unfold Binary.ceiling.
  replace (emax - e) with (prec + (emax - prec - e)) by lia.
  rewrite Z.pow_add_r by lia.
  assert (0 < 2 ^ (emax - prec - e)) by (apply Z.pow_pos_nonneg; lia).
  nia.
Qed.

Lemma digits2_pos_size m : digits2_pos m = Pos.size m.
Proof. induction m; simpl; congruence. Qed.

Lemma digits2_le m k : Zpos m < 2 ^ k -> 0 <= k -> Zpos (digits2_pos m) <= k.
Proof.
  intros Hm Hk. rewrite digits2_pos_size.
  destruct (Z_le_gt_dec (Zpos (Pos.size m)) k) as [|Hgt]; [assumption|].
  exfalso.
  pose proof (Pos.size_le m) as Hle.
  apply Pos2Z.pos_le_pos in Hle. rewrite Pos2Z.inj_pow in Hle.
  assert (2 ^ (k + 1) <= 2 ^ Zpos (Pos.size m)) as Hpow
    by (apply Z.pow_le_mono_r; lia).
  rewrite Z.pow_add_r in Hpow by lia.
  change (Z.pos m~0) with (2 * Zpos m) in Hle. lia.
Qed.

Lemma digits2_prec m k : Zpos (digits2_pos m) <= k -> Zpos m < 2 ^ k.
Proof.
  intros Hd. rewrite digits2_pos_size in Hd.
  pose proof (Pos.size_gt m) as Hgt.
  apply Pos2Z.pos_lt_pos in Hgt. rewrite Pos2Z.inj_pow in Hgt.
  assert (2 ^ Zpos (Pos.size m) <= 2 ^ k) by (apply Z.pow_le_mono_r; lia).
  lia.
Qed.


(** *** Shifting a mantissa to the right *)

Lemma shr_1_spec rec :
  0 <= shr_m rec ->
  shr_m (shr_1 rec) = shr_m rec / 2
  /\ shr_r (shr_1 rec) = Z.odd (shr_m rec)
  /\ shr_s (shr_1 rec) = shr_r rec || shr_s rec.
Proof.
  destruct rec as [m r s]. cbn [shr_m shr_r shr_s]. intros Hm.
  rewrite <- Z.div2_div.
  destruct m as [|[p|p|]|]; try lia; repeat split; reflexivity.
Qed.

Lemma shifted_step m0 k rec :
  0 <= m0 -> shifted m0 k rec -> shifted m0 (k + 1) (shr_1 rec).
Proof.
  intros Hm0 (Hk & Hq & Hex).
  assert (0 < 2 ^ k) as Hpow by (apply Z.pow_pos_nonneg; lia).
  assert (0 <= shr_m rec) as Hpos by (rewrite Hq; apply Z.div_pos; lia).
  destruct (shr_1_spec rec Hpos) as (Hm & Hr & Hs).
  split; [lia|]. split.
  - rewrite Hm, Hq, Z.pow_add_r, Z.div_div by lia. reflexivity.
  - intros Hmod. rewrite Z.pow_add_r in Hmod by lia.
    apply Z.mod_divide in Hmod; [|lia]. destruct Hmod as [q Hq'].
    assert (m0 = 2 * q * 2 ^ k) as Hm0' by (rewrite Hq'; ring).
    assert (m0 mod 2 ^ k = 0) as Hk0
      by (rewrite Hm0'; apply Z.mod_mul; lia).
    destruct (Hex Hk0) as [Hr0 Hs0].
    rewrite Hr, Hs, Hr0, Hs0, Hq, Hm0', Z.div_mul by lia.
    rewrite Z.odd_mul. split; reflexivity.
Qed.

Lemma shifted_iter m0 p :
  0 <= m0 ->
  forall k rec, shifted m0 k rec -> shifted m0 (k + Zpos p) (SpecFloat.iter_pos shr_1 p rec).
Proof.
  intros Hm0. induction p as [p IH|p IH|]; intros k rec Hrec; cbn [SpecFloat.iter_pos].
  - replace (k + Zpos p~1) with (k + 1 + Zpos p + Zpos p) by lia.
    apply IH, IH, shifted_step; assumption.
  - replace (k + Zpos p~0) with (k + Zpos p + Zpos p) by lia.
    apply IH, IH; assumption.
  - apply shifted_step; assumption.
Qed.

Lemma shifted_start m0 : shifted m0 0 (Build_shr_record m0 false false).
Proof.
  split; [lia|]. cbn. rewrite Z.div_1_r. repeat split; reflexivity.
Qed.

(** [shr_fexp] on an exact location shifts right by the number of bits the
    format asks for, if any. *)
Lemma shr_fexp_exact m e :
  0 <= m ->
  let n := Z.max 0 (fexp prec emax (Zdigits2 m + e) - e) in
  snd (shr_fexp prec emax m e loc_Exact) = e + n
  /\ shifted m n (fst (shr_fexp prec emax m e loc_Exact)).
Proof.
  intros Hm n. subst n. unfold shr_fexp, shr. cbn [shr_record_of_loc].
  destruct (fexp prec emax (Zdigits2 m + e) - e) as [|p|p] eqn:E;
    cbn [fst snd].
  - rewrite Z.max_l by lia. split; [lia | apply shifted_start].
  - rewrite Z.max_r by lia. split; [lia|].
    apply (shifted_iter m p Hm 0), shifted_start.
  - rewrite Z.max_l by lia. split; [lia | apply shifted_start].
Qed.

Lemma round_nearest_even_spec rec :
  let m := round_nearest_even (shr_m rec) (loc_of_shr_record rec) in
  shr_m rec <= m <= shr_m rec + 1
  /\ (shr_r rec = false -> shr_s rec = false -> m = shr_m rec).
Proof.
  destruct rec as [m [|] [|]]; cbn; try destruct (Z.even m); split;
    try lia; intros; congruence.
Qed.

(** *** Rounding stays below [2^emax] *)

Lemma Zdigits2_le m e :
  0 <= m <= ceiling e -> e <= emax - prec -> Zdigits2 m + e <= emax.
Proof.
  intros [Hm Hc] He. destruct m as [|p|p]; cbn [Zdigits2]; try lia.
  pose proof (ceiling_lt e He).
  assert (Z.pos (digits2_pos p) <= emax - e) by (apply digits2_le; lia).
  lia.
Qed.

Lemma fexp_le x : x <= emax -> fexp prec emax x <= emax - prec.
Proof. intros Hx. unfold fexp, emin. lia. Qed.

(** One shift-and-round step keeps a mantissa under the ceiling of its new
    exponent. *)
Lemma shift_round_below m e :
  0 <= m <= ceiling e -> e <= emax - prec ->
  let '(rec, e') := shr_fexp prec emax m e loc_Exact in
  let m' := round_nearest_even (shr_m rec) (loc_of_shr_record rec) in
  e' <= emax - prec /\ 0 <= shr_m rec /\ 0 <= m' <= ceiling e'.
Proof.
  intros Hm He.
  destruct (shr_fexp_exact m e (proj1 Hm)) as [He' (Hn & Hq & Hex)].
  destruct (shr_fexp prec emax m e loc_Exact) as [rec e'].
  cbn [fst snd] in *. set (n := Z.max 0 _) in *.
  assert (e' <= emax - prec) as Hle.
  { pose proof (fexp_le _ (Zdigits2_le m e Hm He)). lia. }
  assert (0 < 2 ^ n) as Hpow by (apply Z.pow_pos_nonneg; lia).
  assert (0 <= shr_m rec) as Hpos by (rewrite Hq; apply Z.div_pos; lia).
  destruct (round_nearest_even_spec rec) as [Hrne Hexact].
  split; [assumption|]. split; [assumption|]. split; [lia|].
  assert (ceiling e = ceiling e' * 2 ^ n) as Hc
    by (rewrite He'; apply ceiling_shift; lia).
  assert (shr_m rec <= ceiling e') as Hq'.
  { rewrite Hq. apply Z.div_le_upper_bound; lia. }
  destruct (Z.eq_dec (shr_m rec) (ceiling e')) as [Heq|Hne]; [|lia].
  assert (m = ceiling e' * 2 ^ n) as Hm'.
  { pose proof (Z.mul_div_le m (2 ^ n) Hpow). rewrite <- Hq, Heq in H. lia. }
  assert (m mod 2 ^ n = 0) as Hmod by (rewrite Hm'; apply Z.mod_mul; lia).
  destruct (Hex Hmod) as [Hr Hs]. rewrite (Hexact Hr Hs). lia.
Qed.

Lemma binary_round_aux_finite s m e :
  0 <= m <= ceiling e -> e <= emax - prec ->
  PyFloat.is_finite (binary_round_aux prec emax s m e loc_Exact) = true.
Proof.
  intros Hm He. unfold binary_round_aux.
  pose proof (shift_round_below m e Hm He) as H1.
  destruct (shr_fexp prec emax m e loc_Exact) as [rec e'].
  destruct H1 as (He' & _ & Hm').
  pose proof (shift_round_below _ e' Hm' He') as H2.
  destruct (shr_fexp prec emax _ e' loc_Exact) as [rec' e''].
  destruct H2 as (He'' & Hpos & _).
  destruct (shr_m rec') as [|p|p]; [reflexivity| |lia].
  apply Z.leb_le in He''. rewrite He''. reflexivity.
Qed.


(** *** Aligning a mantissa to a smaller exponent *)

Lemma iter_xO m d : Zpos (Pos.iter xO m d) = Zpos m * 2 ^ Zpos d.
Proof.
  induction d as [|d IH] using Pos.peano_ind.
  - cbn. lia.
  - rewrite Pos.iter_succ, Pos2Z.inj_succ, Z.pow_succ_r by lia.
    change (Z.pos (Pos.iter xO m d)~0) with (2 * Z.pos (Pos.iter xO m d)).
    rewrite IH. ring.
Qed.

(** Aligning keeps the value: the exponent goes down by as much as the
    mantissa is shifted left. *)
Lemma shl_align_spec m e e' :
  let '(m', e'') := shl_align m e e' in
  e'' <= e /\ Zpos m' = Zpos m * 2 ^ (e - e'').
Proof.
  unfold shl_align. destruct (e' - e) as [|d|d] eqn:E.
  - rewrite Z.sub_diag. cbn. lia.
  - rewrite Z.sub_diag. cbn. lia.
  - split; [lia|]. rewrite iter_xO. f_equal. f_equal. lia.
Qed.

Lemma shl_align_below m e e' :
  Zpos m <= ceiling e -> e <= emax - prec ->
  let '(m', e'') := shl_align m e e' in
  Zpos m' <= ceiling e'' /\ e'' <= emax - prec.
Proof.
  intros Hm He. pose proof (shl_align_spec m e e') as H.
  destruct (shl_align m e e') as [m' e'']. destruct H as [Hle Hval].
  split; [|lia].
  rewrite Hval, (ceiling_shift e'' (e - e'')) by lia.
  replace (e'' + (e - e'')) with e by lia.
  apply Z.mul_le_mono_nonneg_r; [apply Z.pow_nonneg|]; lia.
Qed.

Lemma binary_round_finite s m e :
  Zpos m <= ceiling e -> e <= emax - prec ->
  PyFloat.is_finite (binary_round prec emax s m e) = true.
Proof.
  intros Hm He. unfold binary_round.
  pose proof (shl_align_below m e
                (fexp prec emax (Zpos (digits2_pos m) + e)) Hm He) as H.
  destruct (shl_align m e _) as [mz ez]. destruct H as [Hmz Hez].
  apply binary_round_aux_finite; lia.
Qed.

Lemma binary_normalize_finite m e sz :
  Z.abs m <= ceiling e -> e <= emax - prec ->
  PyFloat.is_finite (binary_normalize prec emax m e sz) = true.
Proof.
  intros Hm He. destruct m as [|p|p]; cbn [binary_normalize];
    [reflexivity|..]; apply binary_round_finite; assumption || lia.
Qed.

(** *** Differences of non-negative numbers *)

Lemma bounded_below m e :
  bounded prec emax m e = true ->
  Zpos m < 2 ^ prec /\ e <= emax - prec.
Proof.
  unfold bounded, canonical_mantissa.
  intros [Hc He]%andb_true_iff. apply Z.eqb_eq in Hc. apply Z.leb_le in He.
  split; [|assumption]. apply digits2_prec.
  unfold fexp in Hc. lia.
Qed.

Lemma mantissa_below m e :
  Zpos m < 2 ^ prec -> e <= emax - prec -> Zpos m <= ceiling e.
Proof.
  intros Hm He. unfold Binary.ceiling.
  assert (1 <= 2 ^ (emax - prec - e))
    by (apply (Z.pow_le_mono_r 2 0 (emax - prec - e)); lia).
  nia.
Qed.

(** A number of the format, aligned to a smaller exponent, is under the
    ceiling there. *)
Lemma aligned_below m e ez :
  bounded prec emax m e = true -> ez <= e ->
  Zpos (fst (shl_align m e ez)) <= ceiling ez.
Proof.
  intros [Hm He]%bounded_below Hez.
  pose proof (shl_align_spec m e ez) as H.
  unfold shl_align in *. destruct (ez - e) as [|d|d] eqn:E; cbn [fst] in *.
  - assert (ez = e) as -> by lia. apply mantissa_below; assumption.
  - lia.
  - destruct H as [_ ->]. rewrite (ceiling_shift ez (e - ez)) by lia.
    replace (ez + (e - ez)) with e by lia.
    apply Z.mul_le_mono_nonneg_r; [apply Z.pow_nonneg; lia|].
    apply mantissa_below; assumption.
Qed.

(** The difference of two non-negative finite numbers of the format is
    finite: it cannot exceed the larger of the two. *)
Theorem SFsub_nonneg_finite x y :
  nonneg_finite x = true -> nonneg_finite y = true ->
  PyFloat.is_finite (SFsub prec emax x y) = true.
Proof.
  destruct x as [sx|sx| |[|] mx ex]; try discriminate;
    destruct y as [sy|sy| |[|] my ey]; try discriminate;
    cbn [Binary.nonneg_finite SFsub]; intros Hx Hy.
  - destruct sx, sy; reflexivity.
  - reflexivity.
  - reflexivity.
  - cbv zeta. cbn [cond_Zopp].
    pose proof (aligned_below mx ex (Z.min ex ey) Hx (Z.le_min_l _ _)).
    pose proof (aligned_below my ey (Z.min ex ey) Hy (Z.le_min_r _ _)).
    apply binary_normalize_finite.
    + lia.
    + apply bounded_below in Hx. lia.
Qed.

End SubFinite.

(** The elapsed time between two readings of a clock is a finite float. *)
Lemma sub_readings_finite (now t0 : PyFloat.float) :
  PyFloat.valid_reading now = true →
  PyFloat.valid_reading t0 = true →
  PyFloat.is_finite (PyFloat.sub now t0) = true.
Proof.
  apply (SFsub_nonneg_finite PyFloat.prec PyFloat.emax); reflexivity.
Qed.

Example format_4f_docstring :
  PyFloat.format_4f (S754_finite false 6978777982573321 (-55)) = "0.1937".
Proof. vm_compute. reflexivity. Qed.

Example format_4f_tie_even :
  PyFloat.format_4f (S754_finite false 4503599627370496 (-57)) = "0.0312".
Proof. vm_compute. reflexivity. Qed.

Example format_4f_tie_even_up :
  PyFloat.format_4f (S754_finite false 6755399441055744 (-56)) = "0.0938".
Proof. vm_compute. reflexivity. Qed.

Example format_4f_negative_zero :
  PyFloat.format_4f (S754_finite true 4503599627370496 (-72)) = "-0.0000".
Proof. vm_compute. reflexivity. Qed.

(** ** The handler, path by path *)
Section Paths.

Variables (self : View) (app : App) (g : Globals).
Variables (start_time : option PyFloat.float) (w : World).

Let t0 : PyFloat.float := fst (started start_time w).
Let w0 : World := snd (started start_time w).

(** The handler first fixes its start instant. *)
Lemma create_unfold :
  _create_anomaly_response self app g start_time w =
  match y g with
  | None => (Return missing_target, w0)
  | Some g_y =>
      if negb (shares_column self g_y)
      then (Return incompatible_target, w0)
      else
        try_except_return
          (call_anomaly (model app) (X g) g_y (frequency self))
          "AttributeError"
          (ret (unsupported_model (model app)))
          (λ anomaly_df,
             let! now := default_timer in
             respond
               (<[ "time-seconds" :=
                     JStr (PyFloat.format_4f (PyFloat.sub now t0)) ]>
                  (<[ "data" :=
                        JArr (utils.multi_lvl_column_dataframe_to_dict
                                anomaly_df) ]> ∅)))
          w0
  end.
Proof.
  subst t0 w0. unfold _create_anomaly_response, bind, shares_column.
  destruct start_time as [t|]; cbn [started fst snd ret default_timer];
    destruct (y g) as [g_y|]; try reflexivity;
    destruct (negb _); reflexivity.
Qed.

Lemma create_missing :
  y g = None →
  _create_anomaly_response self app g start_time w
  = (Return missing_target, w0).
Proof. intros Hy. rewrite create_unfold, Hy. reflexivity. Qed.

Lemma create_incompatible g_y :
  y g = Some g_y →
  shares_column self g_y = false →
  _create_anomaly_response self app g start_time w
  = (Return incompatible_target, w0).
Proof. intros Hy Hs. rewrite create_unfold, Hy, Hs. reflexivity. Qed.

Lemma create_unsupported g_y :
  y g = Some g_y →
  shares_column self g_y = true →
  anomaly (model app) = None →
  _create_anomaly_response self app g start_time w
  = (Return (unsupported_model (model app)), w0).
Proof.
  intros Hy Hs Hm. rewrite create_unfold, Hy, Hs.
  unfold try_except_return, call_anomaly. rewrite Hm. reflexivity.
Qed.

(** The world once the model's operation has been called. *)
Let w1 (g_y : DataFrame) : World :=
  {| clock := clock w0; ticks := ticks w0;
     anomaly_calls :=
       anomaly_calls w0 ++
         [{| inv_X := X g; inv_y := g_y;
             inv_frequency := frequency self |}] |}.

Lemma create_raises g_y op e :
  y g = Some g_y →
  shares_column self g_y = true →
  anomaly (model app) = Some op →
  op (X g) g_y (frequency self) = Raise e →
  _create_anomaly_response self app g start_time w
  = (if isinstance e "AttributeError"
     then Return (unsupported_model (model app))
     else Raise e,
     w1 g_y).
Proof.
  intros Hy Hs Hm Hop. rewrite create_unfold, Hy, Hs.
  unfold try_except_return, call_anomaly. rewrite Hm, Hop.
  destruct (isinstance e "AttributeError"); reflexivity.
Qed.

(** A context holding only [data] and [time-seconds] is answered with
    status 200 and serialised unchanged. *)
Lemma respond_fresh (data seconds : json) (w' : World) :
  respond (<[ "time-seconds" := seconds ]> (<[ "data" := data ]> ∅)) w'
  = (Return {| body := <[ "time-seconds" := seconds ]>
                         (<[ "data" := data ]> ∅);
               status := 200 |}, w').
Proof.
  unfold respond, dict_pop, jsonify.
  rewrite !lookup_insert_ne, lookup_empty by done. reflexivity.
Qed.

Lemma create_returns g_y op df :
  y g = Some g_y →
  shares_column self g_y = true →
  anomaly (model app) = Some op →
  op (X g) g_y (frequency self) = Return df →
  _create_anomaly_response self app g start_time w
  = (Return (envelope df (elapsed start_time w)),
     after_success self g g_y start_time w).
Proof.
  intros Hy Hs Hm Hop. rewrite create_unfold, Hy, Hs.
  unfold try_except_return, call_anomaly. rewrite Hm, Hop.
  unfold bind, default_timer. cbn [negb].
  rewrite respond_fresh. unfold envelope, elapsed, after_success.
  subst t0 w0. destruct (started start_time w) as [t w']. reflexivity.
Qed.

End Paths.

(** The second validation, as a statement about the two lists of names. *)
Lemma shares_column_true self g_y :
  shares_column self g_y = true ↔
  ∃ col, col ∈ map name (tags self) ∧ col ∈ columns g_y.
Proof.
  unfold shares_column, any. rewrite existsb_exists. split.
  - intros (col & Hin & Hc). exists col. split.
    + by apply list_elem_of_In.
    + by apply bool_decide_eq_true in Hc.
  - intros (col & Hin & Hc). exists col. split.
    + by apply list_elem_of_In.
    + by apply bool_decide_eq_true.
Qed.

Lemma shares_column_false self g_y :
  shares_column self g_y = false ↔
  ∀ col, col ∈ columns g_y → col ∉ map name (tags self).
Proof.
  rewrite <- not_true_iff_false, shares_column_true. split.
  - intros Hno col Hc Ht. apply Hno. eauto.
  - intros Hall (col & Ht & Hc). exact (Hall col Hc Ht).
Qed.

(** The start instant costs at most one reading and calls nothing. *)
Lemma started_calls start_time w :
  anomaly_calls (snd (started start_time w)) = anomaly_calls w.
Proof. destruct start_time; reflexivity. Qed.

(** Both entry points take one reading of the counter and hand it on,
    which is what the handler does for itself when given no start
    instant. *)
Lemma post_as_create self app g w :
  post self app g w = _create_anomaly_response self app g None w.
Proof. reflexivity. Qed.

Lemma get_as_create self app g w :
  get self app g w = _create_anomaly_response self app g None w.
Proof. reflexivity. Qed.

(** ** Occurrence of one string in another *)

Lemma contains_here needle after : contains needle (needle +:+ after).
Proof. exists "", after. reflexivity. Qed.

Lemma contains_append_l needle a hay :
  contains needle hay → contains needle (a +:+ hay).
Proof.
  intros (before & after & ->). exists (a +:+ before), after.
  symmetry. apply append_assoc.
Qed.

Lemma type_str_contains_qualname t : contains (ty_qualname t) (type_str t).
Proof.
  unfold type_str. apply contains_append_l.
  destruct (decide (ty_module t = "builtins")).
  - apply contains_here.
  - rewrite !append_assoc. do 2 apply contains_append_l. apply contains_here.
Qed.

(** ** Sample requests succeed *)

Lemma sample_successful :
  Successful Sample.view {| model := Sample.detector |} Sample.globals
    Sample.table.
Proof.
  exists Sample.frame_y, (λ _ _ _, Return Sample.table).
  repeat split; reflexivity.
Defined.

(** ** Validation of the target *)

(** C1: whenever [g.y] is [None] the handler answers with status 400 and
    the body [{"message": "Cannot perform anomaly without 'y' to compare
    against."}], and the model's anomaly operation is not called: the log of
    calls is the one the request started with. *)
Theorem C1_missing_target self app g start_time w :
  y g = None →
  let out := _create_anomaly_response self app g start_time w in
  fst out =
    Return {| body :=
                {[ "message" :=
                     JStr "Cannot perform anomaly without 'y' to compare against." ]};
              status := 400 |}
  ∧ anomaly_calls (snd out) = anomaly_calls w.
Proof.
  intros Hy out. subst out. rewrite create_missing by assumption.
  split; [reflexivity|]. apply started_calls.
Qed.

Lemma C1_missing_target_witness :
  y Sample.globals_no_y = None ∧
  let out :=
    _create_anomaly_response Sample.view {| model := Sample.detector |}
      Sample.globals_no_y None Sample.world in
  fst out =
    Return {| body :=
                {[ "message" :=
                     JStr "Cannot perform anomaly without 'y' to compare against." ]};
              status := 400 |}
  ∧ anomaly_calls (snd out) = anomaly_calls Sample.world.
Proof.
  split; [reflexivity|].
  apply (C1_missing_target Sample.view {| model := Sample.detector |}
           Sample.globals_no_y None Sample.world).
  reflexivity.
Defined.

(** C2: when [g.y] is there, the handler answers with status 400 and the
    body [{"message": "y is not a subset of X, cannot do anomaly
    detection"}] exactly when no column name of [y] is the name of a tag, and
    then the model's anomaly operation is not called.  When [y] shares a
    column name with the tags, whatever other columns it has, the request
    passes: no answer has status 400, and a model that has the operation is
    called once, with [X], [y] and the frequency. *)
Theorem C2_incompatible_target self app g start_time w g_y :
  y g = Some g_y →
  let out := _create_anomaly_response self app g start_time w in
  let disjoint := ∀ col, col ∈ columns g_y → col ∉ map name (tags self) in
  (fst out =
     Return {| body :=
                 {[ "message" :=
                      JStr "y is not a subset of X, cannot do anomaly detection" ]};
               status := 400 |}
   ↔ disjoint)
  ∧ (disjoint → anomaly_calls (snd out) = anomaly_calls w)
  ∧ ((∃ col, col ∈ columns g_y ∧ col ∈ map name (tags self)) →
     (∀ r, fst out = Return r → status r ≠ 400)
     ∧ (∀ op, anomaly (model app) = Some op →
          anomaly_calls (snd out) =
          (anomaly_calls w ++
            [{| inv_X := X g; inv_y := g_y;
                inv_frequency := frequency self |}])%list)).
Proof.
  intros Hy out disjoint.
  assert (Hpass : shares_column self g_y = true →
            (∀ r, fst out = Return r → status r ≠ 400)
            ∧ (∀ op, anomaly (model app) = Some op →
                 anomaly_calls (snd out) =
                 (anomaly_calls w ++
                   [{| inv_X := X g; inv_y := g_y;
                       inv_frequency := frequency self |}])%list)).
  { intros Hs. subst out.
    destruct (anomaly (model app)) as [op|] eqn:Hm.
    - destruct (op (X g) g_y (frequency self)) as [df|e] eqn:Hop.
      + rewrite (create_returns _ _ _ _ _ g_y op df) by assumption.
        split.
        * intros r [= <-]. discriminate.
        * intros op' _. unfold after_success. cbn [snd anomaly_calls].
          by rewrite started_calls.
      + rewrite (create_raises _ _ _ _ _ g_y op e) by assumption.
        split.
        * destruct (isinstance e "AttributeError");
            intros r [= <-]; discriminate.
        * intros op' _. cbn [snd anomaly_calls]. by rewrite started_calls.
    - rewrite (create_unsupported _ _ _ _ _ g_y) by assumption.
      split; [intros r [= <-]; discriminate | intros op' [=]]. }
  destruct (shares_column self g_y) eqn:Hs.
  - destruct (Hpass eq_refl) as [Hstatus Hcalls].
    apply shares_column_true in Hs as (col & Ht & Hc).
    assert (¬ disjoint) as Hnd by (intros Hd; exact (Hd col Hc Ht)).
    repeat split.
    + intros Hout. exfalso. by apply (Hstatus _ Hout).
    + intros Hd. by destruct Hnd.
    + intros Hd. by destruct Hnd.
    + apply Hstatus.
    + apply Hcalls.
  - clear Hpass.
    assert (disjoint) as Hd
      by (exact (proj1 (shares_column_false self g_y) Hs)).
    subst out. rewrite (create_incompatible _ _ _ _ _ g_y) by assumption.
    split; [split; [intros _; exact Hd | reflexivity]|].
    split; [intros _; apply started_calls|].
    intros (col & Hc & Ht). by destruct (Hd col Hc).
Qed.

Lemma C2_incompatible_target_witness :
  y Sample.globals_disjoint = Some Sample.frame_y_disjoint ∧
  let out :=
    _create_anomaly_response Sample.view {| model := Sample.detector |}
      Sample.globals_disjoint None Sample.world in
  let disjoint :=
    ∀ col, col ∈ columns Sample.frame_y_disjoint →
           col ∉ map name (tags Sample.view) in
  (fst out =
     Return {| body :=
                 {[ "message" :=
                      JStr "y is not a subset of X, cannot do anomaly detection" ]};
               status := 400 |}
   ↔ disjoint)
  ∧ (disjoint → anomaly_calls (snd out) = anomaly_calls Sample.world)
  ∧ ((∃ col, col ∈ columns Sample.frame_y_disjoint
             ∧ col ∈ map name (tags Sample.view)) →
     (∀ r, fst out = Return r → status r ≠ 400)
     ∧ (∀ op, anomaly (model {| model := Sample.detector |}) = Some op →
          anomaly_calls (snd out) =
          (anomaly_calls Sample.world ++
            [{| inv_X := X Sample.globals_disjoint;
                inv_y := Sample.frame_y_disjoint;
                inv_frequency := frequency Sample.view |}])%list)).
Proof.
  split; [reflexivity|].
  apply (C2_incompatible_target Sample.view {| model := Sample.detector |}
           Sample.globals_disjoint None Sample.world Sample.frame_y_disjoint).
  reflexivity.
Defined.

(** The spec's scenario: [y] with the column [tag-5] alone, tags [tag-0] and
    [tag-1]. *)
Example disjoint_scenario :
  fst (post Sample.view {| model := Sample.detector |} Sample.globals_disjoint
         Sample.world) =
  Return {| body :=
              {[ "message" :=
                   JStr "y is not a subset of X, cannot do anomaly detection" ]};
            status := 400 |}.
Proof. reflexivity. Qed.

(** A target with one shared and one foreign column passes the second
    validation. *)
Example partial_overlap_passes :
  shares_column Sample.view Sample.frame_y = true.
Proof. reflexivity. Qed.

(** ** The capability check *)

(** C3: a request that passes both validations and is served by a model
    without the [anomaly] attribute is answered with status 422 and a body
    whose message contains the name of the model's class. *)
Theorem C3_unsupported_model self app g start_time w g_y :
  y g = Some g_y →
  shares_column self g_y = true →
  anomaly (model app) = None →
  ∃ message,
    fst (_create_anomaly_response self app g start_time w) =
      Return {| body := {[ "message" := JStr message ]}; status := 422 |}
    ∧ contains (ty_qualname (model_type (model app))) message.
Proof.
  intros Hy Hs Hm.
  rewrite (create_unsupported _ _ _ _ _ g_y) by assumption.
  eexists. split; [reflexivity|].
  apply contains_append_l, type_str_contains_qualname.
Qed.

Lemma C3_unsupported_model_witness :
  y Sample.globals = Some Sample.frame_y ∧
  shares_column Sample.view Sample.frame_y = true ∧
  anomaly (model {| model := Sample.scaler |}) = None ∧
  ∃ message,
    fst (_create_anomaly_response Sample.view {| model := Sample.scaler |}
           Sample.globals None Sample.world) =
      Return {| body := {[ "message" := JStr message ]}; status := 422 |}
    ∧ contains (ty_qualname (model_type (model {| model := Sample.scaler |})))
        message.
Proof.
  repeat (split; [reflexivity|]).
  apply (C3_unsupported_model Sample.view {| model := Sample.scaler |}
           Sample.globals None Sample.world Sample.frame_y);
    reflexivity.
Defined.

Example scaler_message :
  fst (post Sample.view {| model := Sample.scaler |} Sample.globals
         Sample.world) =
  Return {| body :=
              {[ "message" :=
                   JStr "Model is not an AnomalyDetector, it is of type: <class 'sklearn.preprocessing.data.StandardScaler'>" ]};
            status := 422 |}.
Proof. reflexivity. Qed.

(** C4: only the absence of the capability should be caught, and an error
    raised by the computation of an anomaly-capable model should reach the
    caller.  The handler catches by exception class instead.  Here the
    detector has the operation and its computation raises an
    [AttributeError]: the error does not reach the caller, and the request
    is answered with the 422 of a model without the capability, whose
    message says of a detector that it is not one. *)
Lemma C4_attribute_error_inside_is_caught :
  (∃ op, anomaly (model {| model := Sample.unfitted_detector |}) = Some op
         ∧ op (X Sample.globals) Sample.frame_y (frequency Sample.view)
           = Raise Sample.unfitted_error)
  ∧ fst (_create_anomaly_response Sample.view
           {| model := Sample.unfitted_detector |} Sample.globals None
           Sample.world)
    ≠ Raise Sample.unfitted_error
  ∧ fst (_create_anomaly_response Sample.view
           {| model := Sample.unfitted_detector |} Sample.globals None
           Sample.world)
    = Return (unsupported_model Sample.unfitted_detector)
  ∧ status (unsupported_model Sample.unfitted_detector) = 422.
Proof.
  split; [|split; [|split]].
  - eexists. split; reflexivity.
  - discriminate.
  - reflexivity.
  - reflexivity.
Qed.

(** Errors of every other class do reach the caller: when a model that has
    the anomaly operation raises from its computation an error that is not
    an instance of [AttributeError], the handler raises that same error and
    builds no response. *)
Lemma other_errors_propagate self app g start_time w g_y op e :
  y g = Some g_y →
  shares_column self g_y = true →
  anomaly (model app) = Some op →
  op (X g) g_y (frequency self) = Raise e →
  isinstance e "AttributeError" = false →
  fst (_create_anomaly_response self app g start_time w) = Raise e.
Proof.
  intros Hy Hs Hm Hop He.
  rewrite (create_raises _ _ _ _ _ g_y op e) by assumption.
  rewrite He. reflexivity.
Qed.

Lemma other_errors_propagate_witness :
  let app := {| model := Sample.failing_detector |} in
  let op : DataFrame → DataFrame → string → result TabularResult :=
    λ _ _ _, Raise (Sample.ValueError "shapes not aligned") in
  let e := Sample.ValueError "shapes not aligned" in
  y Sample.globals = Some Sample.frame_y ∧
  shares_column Sample.view Sample.frame_y = true ∧
  anomaly (model app) = Some op ∧
  op (X Sample.globals) Sample.frame_y (frequency Sample.view) = Raise e ∧
  isinstance e "AttributeError" = false ∧
  fst (_create_anomaly_response Sample.view app Sample.globals None
         Sample.world) = Raise e.
Proof.
  cbv zeta. repeat (split; [reflexivity|]).
  apply (other_errors_propagate Sample.view
           {| model := Sample.failing_detector |} Sample.globals None
           Sample.world Sample.frame_y
           (λ _ _ _, Raise (Sample.ValueError "shapes not aligned"))
           (Sample.ValueError "shapes not aligned"));
    reflexivity.
Defined.

(** ** The success envelope *)

(** A successful request is answered with the envelope of its frame and of
    the elapsed time. *)
Lemma create_success self app g start_time w df :
  Successful self app g df →
  fst (_create_anomaly_response self app g start_time w)
  = Return (envelope df (elapsed start_time w)).
Proof.
  intros (g_y & op & Hy & Hs & Hm & Hop).
  rewrite (create_returns _ _ _ _ _ g_y op df) by assumption. reflexivity.
Qed.


Lemma envelope_seconds df dt :
  body (envelope df dt) !! "time-seconds"
  = Some (JStr (PyFloat.format_4f dt)).
Proof. unfold envelope. cbn [body]. apply lookup_insert_eq. Qed.

Lemma envelope_keys df dt :
  dom (body (envelope df dt)) = ({[ "data"; "time-seconds" ]} : gset string).
Proof.
  unfold envelope. cbn [body].
  rewrite !dom_insert_L, dom_empty_L. set_solver.
Qed.

Lemma envelope_no_status_code df dt :
  body (envelope df dt) !! "status-code" = None.
Proof.
  unfold envelope. cbn [body].
  rewrite !lookup_insert_ne by done. apply lookup_empty.
Qed.

(** Between two readings of a clock a finite time elapses. *)
Lemma elapsed_finite start_time w :
  instants_ok start_time w = true →
  PyFloat.is_finite (elapsed start_time w) = true.
Proof.
  unfold instants_ok, elapsed.
  destruct (started start_time w) as [t0 w0].
  intros [Ht0 Hnow]%andb_true_iff. by apply sub_readings_finite.
Qed.

(** A request whose frame has no rows. *)
Example empty_frame_envelope :
  ∃ r, fst (post Sample.view {| model := Sample.empty_detector |}
              Sample.globals Sample.world) = Return r
       ∧ body r !! "data" = Some (JArr [])
       ∧ body r !! "time-seconds" = Some (JStr "0.2500")
       ∧ status r = 200.
Proof. eexists. repeat split; reflexivity. Qed.

(** Served over the quarter-second clock, the sample request reports a
    quarter of a second. *)
Example sample_time_seconds :
  ∃ r, fst (post Sample.view {| model := Sample.detector |} Sample.globals
              Sample.world) = Return r
       ∧ body r !! "time-seconds" = Some (JStr "0.2500").
Proof. eexists. split; reflexivity. Qed.

(** The status popped on the last line comes after the body has been
    serialised: an entry [status-code] in the context would set the status
    of the answer and still be part of its body. *)
Remark respond_serialises_before_pop :
  ∀ w,
    respond (<[ "status-code" := JInt 201 ]> (<[ "data" := JArr [] ]> ∅)) w
    = (Return {| body := <[ "status-code" := JInt 201 ]>
                           (<[ "data" := JArr [] ]> ∅);
                 status := 201 |}, w).
Proof.
  intros w. unfold respond, dict_pop, jsonify.
  rewrite lookup_insert_eq. reflexivity.
Qed.

(** A status given as a string, or as [None], is taken too, and the entry
    stays in the body all the same. *)
Example respond_string_status :
  ∀ w,
    respond (<[ "status-code" := JStr "201" ]> (<[ "data" := JArr [] ]> ∅)) w
    = (Return {| body := <[ "status-code" := JStr "201" ]>
                           (<[ "data" := JArr [] ]> ∅);
                 status := 201 |}, w)
    ∧ respond (<[ "status-code" := JNull ]> (<[ "data" := JArr [] ]> ∅)) w
      = (Return {| body := <[ "status-code" := JNull ]>
                             (<[ "data" := JArr [] ]> ∅);
                   status := 200 |}, w).
Proof.
  intros w. unfold respond, dict_pop, jsonify.
  rewrite !lookup_insert_eq. split; reflexivity.
Qed.




(** C9: every successful answer has status 200.  The context the handler
    fills holds [data] and [time-seconds] only, so popping [status-code]
    from it gives the default. *)
Theorem C9_success_status_200 self app g start_time w df :
  Successful self app g df →
  ∃ r context,
    fst (_create_anomaly_response self app g start_time w) = Return r
    ∧ status r = 200
    ∧ body r = context
    ∧ context !! "status-code" = None
    ∧ fst (dict_pop "status-code" (JInt 200) context) = JInt 200.
Proof.
  intros Hok.
  pose proof (envelope_no_status_code df (elapsed start_time w)) as Hnone.
  exists (envelope df (elapsed start_time w)),
         (body (envelope df (elapsed start_time w))).
  split; [by apply create_success|].
  split; [reflexivity|]. split; [reflexivity|]. split; [exact Hnone|].
  unfold dict_pop. cbn [fst]. rewrite Hnone. reflexivity.
Qed.

Lemma C9_success_status_200_witness :
  Successful Sample.view {| model := Sample.detector |} Sample.globals
    Sample.table ∧
  ∃ r context,
    fst (_create_anomaly_response Sample.view {| model := Sample.detector |}
           Sample.globals None Sample.world) = Return r
    ∧ status r = 200
    ∧ body r = context
    ∧ context !! "status-code" = None
    ∧ fst (dict_pop "status-code" (JInt 200) context) = JInt 200.
Proof.
  split; [exact sample_successful|].
  apply (C9_success_status_200 Sample.view {| model := Sample.detector |}
           Sample.globals None Sample.world Sample.table).
  exact sample_successful.
Defined.

(** ** The transformer *)

Section Transformer.

Import utils.

Lemma transform_length df :
  length (multi_lvl_column_dataframe_to_dict df) = length (rows df).
Proof. unfold multi_lvl_column_dataframe_to_dict. apply length_map. Qed.

Lemma transform_lookup df (i : nat) :
  multi_lvl_column_dataframe_to_dict df !! i
  = record_of_row (labels df) <$> rows df !! i.
Proof. unfold multi_lvl_column_dataframe_to_dict. apply list_lookup_fmap. Qed.

(** The records of a frame extended by one row are the records of the
    frame followed by the record of that row: rows are taken one by one,
    in order, whether or not an equal row came before. *)
Lemma transform_snoc cols rs row :
  multi_lvl_column_dataframe_to_dict {| labels := cols; rows := rs ++ [row] |}
  = (multi_lvl_column_dataframe_to_dict {| labels := cols; rows := rs |}
       ++ [record_of_row cols row])%list.
Proof. unfold multi_lvl_column_dataframe_to_dict. cbn. apply map_app. Qed.

End Transformer.

(** C7: a frame of N rows gives N records, the i-th record being the one
    of the i-th row: nothing is reordered and nothing is dropped, equal rows
    included; a frame without rows gives the empty list. *)
Theorem C7_one_record_per_row_in_order df :
  length (utils.multi_lvl_column_dataframe_to_dict df) = length (rows df)
  ∧ (∀ i : nat,
       utils.multi_lvl_column_dataframe_to_dict df !! i
       = utils.record_of_row (labels df) <$> rows df !! i)
  ∧ (∀ row : list cell,
       utils.multi_lvl_column_dataframe_to_dict
         {| labels := labels df; rows := rows df ++ [row; row] |}
       = (utils.multi_lvl_column_dataframe_to_dict df
            ++ [utils.record_of_row (labels df) row;
                utils.record_of_row (labels df) row])%list)
  ∧ (rows df = [] → utils.multi_lvl_column_dataframe_to_dict df = []).
Proof.
  split; [apply transform_length|].
  split; [apply transform_lookup|].
  split.
  - intros row. unfold utils.multi_lvl_column_dataframe_to_dict. cbn.
    apply map_app.
  - intros Hrows. unfold utils.multi_lvl_column_dataframe_to_dict.
    rewrite Hrows. reflexivity.
Qed.

(** The spec's scenario: one row, two tags. *)
Example transform_scenario :
  utils.multi_lvl_column_dataframe_to_dict Sample.table =
  [ JObj [ ("start", JArr [JStr "2016-01-01T00:00:00+00:00"]);
           ("end", JArr [JStr "2016-01-01T00:10:00+00:00"]);
           ("total-anomaly", JArr [JFloat Sample.f_1_33]);
           ("tag-anomaly",
            JObj [ ("tag-0", JFloat Sample.f_1_5);
                   ("tag-1", JFloat Sample.f_0_25) ]) ] ].
Proof. reflexivity. Qed.

Example transform_empty :
  utils.multi_lvl_column_dataframe_to_dict Sample.empty_table = [].
Proof. reflexivity. Qed.

(** ** The two entry points *)

(** C10: [post] and [get] are the same function of the view, the
    application, the extracted request and the world: both read the counter
    once and hand over to [_create_anomaly_response], so they give the same
    answer, body and status, and leave the same world. *)
Theorem C10_get_post_equivalent self app g w :
  post self app g w = get self app g w
  ∧ post self app g w
    = (let! start_time := default_timer in
       _create_anomaly_response self app g (Some start_time)) w.
Proof. split; reflexivity. Qed.

(** * The handler as a whole

    What holds of every run of the handler, whichever path it takes. *)

(** Splits a goal about a run of the handler into its six paths: no
    target, a target without a shared column, a model without the
    operation, an operation that returns, one that raises an
    [AttributeError], one that raises anything else. *)
Ltac handler_paths self app g start_time w :=
  let g_y := fresh "g_y" in
  let op := fresh "op" in
  let df := fresh "df" in
  let e := fresh "e" in
  let Hy := fresh "Hy" in
  let Hs := fresh "Hs" in
  let Hm := fresh "Hm" in
  let Hop := fresh "Hop" in
  let He := fresh "He" in
  destruct (y g) as [g_y|] eqn:Hy;
  [ destruct (shares_column self g_y) eqn:Hs;
    [ destruct (anomaly (model app)) as [op|] eqn:Hm;
      [ destruct (op (X g) g_y (frequency self)) as [df|e] eqn:Hop;
        [ rewrite (create_returns self app g start_time w g_y op df
                     Hy Hs Hm Hop)
        | rewrite (create_raises self app g start_time w g_y op e
                     Hy Hs Hm Hop);
          destruct (isinstance e "AttributeError") eqn:He ]
      | rewrite (create_unsupported self app g start_time w g_y Hy Hs Hm) ]
    | rewrite (create_incompatible self app g start_time w g_y Hy Hs) ]
  | rewrite (create_missing self app g start_time w Hy) ].

Lemma message_keys (text : string) :
  dom ({[ "message" := JStr text ]} : gmap string json)
  = ({[ "message" ]} : gset string).
Proof. apply dom_singleton_L. Qed.

(** X1: whatever the request, an answer of the handler has status 200,
    400 or 422 and nothing else; with 200 its body has the keys [data] and
    [time-seconds], with 400 or 422 the single key [message]. *)
Theorem answer_status_and_shape self app g start_time w r :
  fst (_create_anomaly_response self app g start_time w) = Return r →
  (status r = 200
   ∧ dom (body r) = ({[ "data"; "time-seconds" ]} : gset string))
  ∨ ((status r = 400 ∨ status r = 422)
     ∧ dom (body r) = ({[ "message" ]} : gset string)).
Proof.
  handler_paths self app g start_time w; cbn [fst]; intros [= <-].
  - left. split; [reflexivity | apply envelope_keys].
  - right. split; [right; reflexivity | apply message_keys].
  - right. split; [right; reflexivity | apply message_keys].
  - right. split; [left; reflexivity | apply message_keys].
  - right. split; [left; reflexivity | apply message_keys].
Qed.

Lemma answer_status_and_shape_witness :
  fst (_create_anomaly_response Sample.view {| model := Sample.scaler |}
         Sample.globals None Sample.world)
  = Return (unsupported_model Sample.scaler)
  ∧ ((status (unsupported_model Sample.scaler) = 200
      ∧ dom (body (unsupported_model Sample.scaler))
        = ({[ "data"; "time-seconds" ]} : gset string))
     ∨ ((status (unsupported_model Sample.scaler) = 400
         ∨ status (unsupported_model Sample.scaler) = 422)
        ∧ dom (body (unsupported_model Sample.scaler))
          = ({[ "message" ]} : gset string))).
Proof.
  split; [reflexivity|].
  apply (answer_status_and_shape Sample.view {| model := Sample.scaler |}
           Sample.globals None Sample.world).
  reflexivity.
Defined.

(** X2: status 200 is given to successful requests only: when the handler
    answers 200, [y] was there and shared a column with the tags, the model
    had the operation and returned a frame, and the answer is the envelope
    of that frame and of the elapsed time. *)
Theorem ok_only_when_successful self app g start_time w r :
  fst (_create_anomaly_response self app g start_time w) = Return r →
  status r = 200 →
  ∃ df, Successful self app g df
        ∧ r = envelope df (elapsed start_time w).
Proof.
  handler_paths self app g start_time w; cbn [fst]; intros [= <-];
    try discriminate.
  intros _. exists df. split; [|reflexivity].
  exists g_y, op. auto.
Qed.

Lemma ok_only_when_successful_witness :
  fst (_create_anomaly_response Sample.view {| model := Sample.detector |}
         Sample.globals None Sample.world)
  = Return (envelope Sample.table (elapsed None Sample.world))
  ∧ status (envelope Sample.table (elapsed None Sample.world)) = 200
  ∧ ∃ df, Successful Sample.view {| model := Sample.detector |}
            Sample.globals df
          ∧ envelope Sample.table (elapsed None Sample.world)
            = envelope df (elapsed None Sample.world).
Proof.
  split; [reflexivity|]. split; [reflexivity|].
  apply (ok_only_when_successful Sample.view {| model := Sample.detector |}
           Sample.globals None Sample.world); reflexivity.
Defined.

(** X3: the 422 answer is given exactly when the request passes both
    validations and the call of the model's operation ends in an
    [AttributeError]: the model has no such attribute, or the operation
    raises an instance of that class or of a subclass. *)
Theorem unsupported_iff_attribute_error self app g start_time w :
  fst (_create_anomaly_response self app g start_time w)
  = Return (unsupported_model (model app))
  ↔ ∃ g_y, Validated self g g_y
           ∧ (anomaly (model app) = None
              ∨ ∃ op e, anomaly (model app) = Some op
                        ∧ op (X g) g_y (frequency self) = Raise e
                        ∧ isinstance e "AttributeError" = true).
Proof.
  split.
  - handler_paths self app g start_time w; cbn [fst];
      intros [=]; exists g_y; (split; [by split|]).
    + right. exists op, e. auto.
    + by left.
  - intros (g_y & [Hy Hs] & [Hm | (op & e & Hm & Hop & He)]).
    + by rewrite (create_unsupported _ _ _ _ _ g_y).
    + rewrite (create_raises _ _ _ _ _ g_y op e) by assumption.
      by rewrite He.
Qed.

(** X4: the handler raises exactly the errors the model's operation raises
    that are not instances of [AttributeError]; it never raises on its own
    account. *)
Theorem raises_iff_model_raises self app g start_time w e :
  fst (_create_anomaly_response self app g start_time w) = Raise e
  ↔ ∃ g_y op, Validated self g g_y
              ∧ anomaly (model app) = Some op
              ∧ op (X g) g_y (frequency self) = Raise e
              ∧ isinstance e "AttributeError" = false.
Proof.
  split.
  - handler_paths self app g start_time w; cbn [fst]; intros [=].
    subst. exists g_y, op. repeat split; assumption.
  - intros (g_y & op & [Hy Hs] & Hm & Hop & He).
    rewrite (create_raises _ _ _ _ _ g_y op e) by assumption.
    by rewrite He.
Qed.

(** X5: a run of the handler never rewrites the record of earlier calls
    and calls the model's operation at most once: once, with [g.X], [g.y]
    and the view's frequency, when the request passes both validations and
    the model has the operation, and not at all otherwise. *)
Theorem model_called_at_most_once self app g start_time w :
  let calls w' := anomaly_calls w' in
  let w' := snd (_create_anomaly_response self app g start_time w) in
  (∃ g_y op, Validated self g g_y
             ∧ anomaly (model app) = Some op
             ∧ calls w' = (calls w ++ [the_call self g g_y])%list)
  ∨ ((y g = None
      ∨ (∃ g_y, y g = Some g_y ∧ shares_column self g_y = false)
      ∨ anomaly (model app) = None)
     ∧ calls w' = calls w).
Proof.
  cbv zeta.
  handler_paths self app g start_time w; cbn [snd].
  - left. exists g_y, op. split; [by split|]. split; [reflexivity|].
    unfold after_success, the_call. cbn [anomaly_calls].
    by rewrite started_calls.
  - left. exists g_y, op. split; [by split|]. split; [reflexivity|].
    unfold the_call. cbn [anomaly_calls]. by rewrite started_calls.
  - left. exists g_y, op. split; [by split|]. split; [reflexivity|].
    unfold the_call. cbn [anomaly_calls]. by rewrite started_calls.
  - right. split; [auto | apply started_calls].
  - right. split; [eauto | apply started_calls].
  - right. split; [auto | apply started_calls].
Qed.

(** X6: an entry point leaves the readings of the counter as they are and
    only moves forward in them: [post] and [get] read the counter twice when
    the request is successful, to time it, and once when it is not.  Neither
    an error answer nor an error of the model costs a second reading. *)
Theorem entry_points_read_the_counter self app g w :
  let reads (handler : View → App → Globals → M Response) :=
    let w' := snd (handler self app g w) in
    clock w' = clock w
    ∧ ((∃ df, Successful self app g df) → ticks w' = S (S (ticks w)))
    ∧ (¬ (∃ df, Successful self app g df) → ticks w' = S (ticks w)) in
  reads post ∧ reads get.
Proof.
  cbv beta zeta. rewrite get_as_create, post_as_create.
  assert (∀ P : Prop, P → P ∧ P) as Hdup by auto. apply Hdup.
  handler_paths self app g (@None PyFloat.float) w;
    cbn [snd started clock ticks];
    unfold after_success; cbn [snd started clock ticks];
    (split; [reflexivity|]); split; try reflexivity;
    try (intros (df' & g_y' & op' & Hy' & Hs' & Hm' & Hop'); congruence).
  intros Hno. destruct Hno. exists df, g_y, op. auto.
Qed.

(** X7: the answer depends on the start instant and on the world through
    the elapsed time alone: two runs for the same view, application and
    request that measure the same elapsed time end the same way, whatever
    was read from the counter or asked of the model before. *)
Theorem answer_depends_on_elapsed_only self app g start1 w1 start2 w2 :
  elapsed start1 w1 = elapsed start2 w2 →
  fst (_create_anomaly_response self app g start1 w1)
  = fst (_create_anomaly_response self app g start2 w2).
Proof.
  intros Hdt.
  destruct (y g) as [g_y|] eqn:Hy.
  - destruct (shares_column self g_y) eqn:Hs.
    + destruct (anomaly (model app)) as [op|] eqn:Hm.
      * destruct (op (X g) g_y (frequency self)) as [df|e] eqn:Hop.
        -- rewrite !(create_returns _ _ _ _ _ g_y op df) by assumption.
           cbn [fst]. by rewrite Hdt.
        -- by rewrite !(create_raises _ _ _ _ _ g_y op e) by assumption.
      * by rewrite !(create_unsupported _ _ _ _ _ g_y) by assumption.
    + by rewrite !(create_incompatible _ _ _ _ _ g_y) by assumption.
  - by rewrite !create_missing by assumption.
Qed.

Lemma answer_depends_on_elapsed_only_witness :
  elapsed None Sample.world
  = elapsed (Some (Sample.quarter_clock 2)) Sample.later_world
  ∧ fst (_create_anomaly_response Sample.view {| model := Sample.detector |}
           Sample.globals None Sample.world)
    = fst (_create_anomaly_response Sample.view
             {| model := Sample.detector |} Sample.globals
             (Some (Sample.quarter_clock 2)) Sample.later_world).
Proof.
  split; [reflexivity|].
  apply (answer_depends_on_elapsed_only Sample.view
           {| model := Sample.detector |} Sample.globals None Sample.world
           (Some (Sample.quarter_clock 2)) Sample.later_world).
  reflexivity.
Defined.

(** X9: a view without tags, and a target without columns, fail the
    second validation for want of anything to compare: the answer is the 400
    of an incompatible target, and the model is not called. *)
Theorem nothing_to_compare self app g start_time w g_y :
  y g = Some g_y →
  tags self = [] ∨ columns g_y = [] →
  fst (_create_anomaly_response self app g start_time w)
  = Return incompatible_target
  ∧ anomaly_calls (snd (_create_anomaly_response self app g start_time w))
    = anomaly_calls w.
Proof.
  intros Hy Hempty.
  assert (shares_column self g_y = false) as Hs.
  { apply shares_column_false. intros col Hc Ht.
    destruct Hempty as [Htags | Hcols].
    - rewrite Htags in Ht. by apply not_elem_of_nil in Ht.
    - rewrite Hcols in Hc. by apply not_elem_of_nil in Hc. }
  rewrite (create_incompatible _ _ _ _ _ g_y) by assumption.
  split; [reflexivity | apply started_calls].
Qed.

Lemma nothing_to_compare_witness :
  y Sample.globals = Some Sample.frame_y
  ∧ (tags Sample.view_without_tags = [] ∨ columns Sample.frame_y = [])
  ∧ fst (_create_anomaly_response Sample.view_without_tags
           {| model := Sample.detector |} Sample.globals None Sample.world)
    = Return incompatible_target
  ∧ anomaly_calls
      (snd (_create_anomaly_response Sample.view_without_tags
              {| model := Sample.detector |} Sample.globals None
              Sample.world))
    = anomaly_calls Sample.world.
Proof.
  split; [reflexivity|]. split; [left; reflexivity|].
  apply (nothing_to_compare Sample.view_without_tags
           {| model := Sample.detector |} Sample.globals None Sample.world
           Sample.frame_y); [reflexivity | left; reflexivity].
Defined.

(** * The reported time, read back *)
Section ReadBack.

Import PyFloat Numeral.

Lemma digit_value_char d :
  0 ≤ d < 10 → digit_value (digit_char d) = Some d.
Proof.
  intros Hd.
  assert (d = 0 ∨ d = 1 ∨ d = 2 ∨ d = 3 ∨ d = 4 ∨
          d = 5 ∨ d = 6 ∨ d = 7 ∨ d = 8 ∨ d = 9) as Hcases by lia.
  repeat (destruct Hcases as [-> | Hcases]; [reflexivity|]).
  subst d. reflexivity.
Qed.

(** Reading a printed numeral gives the number it stands for. *)
Lemma read_string_of_uint d acc :
  read_digits acc (NilEmpty.string_of_uint d) = Some (uint_value acc d).
Proof.
  revert acc. induction d; intros acc; cbn [NilEmpty.string_of_uint];
    [reflexivity|..];
    cbn [read_digits uint_value];
    match goal with
    | |- context [digit_value ?c] =>
        let v := eval vm_compute in (digit_value c) in
        change (digit_value c) with v
    end;
    cbv beta iota; rewrite IHd; do 2 f_equal; lia.
Qed.

Lemma of_uint_acc_value d acc :
  Z.pos (Pos.of_uint_acc d acc) = uint_value (Z.pos acc) d.
Proof.
  revert acc. induction d; intros acc; cbn [Pos.of_uint_acc uint_value];
    [reflexivity|..]; rewrite IHd; f_equal; lia.
Qed.

Lemma of_uint_value d : Z.of_N (Pos.of_uint d) = uint_value 0 d.
Proof.
  induction d; cbn [Pos.of_uint uint_value]; [reflexivity| |..];
    [exact IHd|..]; cbn [Z.of_N]; apply of_uint_acc_value.
Qed.

Lemma read_decimal n : 0 ≤ n → read_digits 0 (decimal n) = Some n.
Proof.
  intros Hn. unfold decimal, NilZero.string_of_uint.
  pose proof (DecimalN.Unsigned.of_to (Z.to_N n)) as Hof.
  unfold N.of_uint in Hof.
  assert (uint_value 0 (N.to_uint (Z.to_N n)) = n) as Hval.
  { rewrite <- of_uint_value, Hof. lia. }
  destruct (N.to_uint (Z.to_N n)) eqn:E; cbv beta iota;
    try (rewrite read_string_of_uint, Hval; reflexivity).
  cbn in Hval. subst n. reflexivity.
Qed.

Lemma read_pad4 r : 0 ≤ r < 10000 → read_digits 0 (pad4 r) = Some r.
Proof.
  intros Hr. unfold pad4. cbn [read_digits].
  rewrite !digit_value_char by (apply Z.mod_pos_bound; lia).
  f_equal. Z.to_euclidean_division_equations. lia.
Qed.

Lemma before_point_app a b :
  all_chars (λ c, negb (is_point c)) a = true →
  before_point (a +:+ "." +:+ b) = a.
Proof.
  induction a as [|c a IH]; [reflexivity|].
  rewrite append_cons. cbn [all_chars before_point].
  intros [Hc Ha]%andb_true_iff. apply negb_true_iff in Hc. rewrite Hc.
  f_equal. auto.
Qed.

Lemma string_of_uint_no_minus d :
  all_chars (λ c, negb (Ascii.eqb c "-")) (NilEmpty.string_of_uint d) = true.
Proof. induction d; simpl; auto. Qed.

(** A printed natural number starts with a digit, not with a sign. *)
Lemma strip_sign_decimal n rest :
  strip_sign (decimal n +:+ rest) = (false, decimal n +:+ rest).
Proof.
  unfold decimal, NilZero.string_of_uint.
  destruct (N.to_uint (Z.to_N n)) eqn:E; reflexivity.
Qed.

Lemma scaled4_nonneg m e : 0 ≤ scaled4 m e.
Proof.
  unfold scaled4. destruct e as [|p|p].
  - lia.
  - assert (0 < 2 ^ Z.pos p) by (apply Z.pow_pos_nonneg; lia). nia.
  - unfold round_half_even.
    assert (0 < 2 ^ Z.pos p) as Hpow by (apply Z.pow_pos_nonneg; lia).
    assert (0 ≤ Z.pos m * 10000 / 2 ^ Z.pos p) by (apply Z.div_pos; lia).
    destruct (_ ?= _); try destruct (Z.even _); lia.
Qed.

End ReadBack.

(** A finite float, formatted and read back, gives its sign and its
    magnitude to the nearest ten-thousandth. *)
Lemma format_4f_reads_back x :
  PyFloat.is_finite x = true →
  ∃ n, Numeral.read_fixed4 (PyFloat.format_4f x) = Some (sign_bit x, n)
       ∧ 0 ≤ n ∧ nearest_ten_thousandth x n.
Proof.
  destruct x as [s|s| |s m e]; cbn [PyFloat.is_finite]; try discriminate;
    intros _.
  - exists 0. split; [destruct s; reflexivity|]. split; [lia | reflexivity].
  - exists (PyFloat.scaled4 m e).
    pose proof (scaled4_nonneg m e) as Hn.
    split; [|split; [exact Hn|]].
    + cbn [PyFloat.format_4f sign_bit]. cbv zeta.
      set (n := PyFloat.scaled4 m e) in *.
      assert (0 ≤ n / 10000) as Hq by (apply Z.div_pos; lia).
      pose proof (Z.mod_pos_bound n 10000 ltac:(lia)) as Hr.
      assert (Numeral.read_fixed4
                (PyFloat.decimal (n / 10000) +:+ "." +:+
                 PyFloat.pad4 (n mod 10000))
              = Some (false, n)) as Hread.
      { unfold Numeral.read_fixed4. rewrite strip_sign_decimal.
        rewrite after_point_app by apply decimal_no_point.
        rewrite before_point_app by apply decimal_no_point.
        destruct (pad4_digits (n mod 10000)) as [-> _].
        cbn [Nat.eqb]. rewrite read_decimal, read_pad4 by assumption.
        do 2 f_equal. pose proof (Z.div_mod n 10000 ltac:(lia)). lia. }
      destruct s; cbn [PyFloat.sign].
      * unfold Numeral.read_fixed4 in *. rewrite append_cons, append_nil.
        cbn [Numeral.strip_sign]. change (Ascii.eqb "-" "-") with true.
        cbv beta iota. rewrite strip_sign_decimal in Hread.
        destruct (PyFloat.after_point _) as [fr|]; [|discriminate].
        destruct (Nat.eqb _ 4); [|discriminate].
        destruct (Numeral.read_digits 0 (Numeral.before_point _));
          [|discriminate].
        destruct (Numeral.read_digits 0 fr); [|discriminate].
        by injection Hread as ->.
      * rewrite append_nil. exact Hread.
    + unfold nearest_ten_thousandth, PyFloat.scaled4.
      destruct e as [|p|p]; [lia | lia |].
      assert (0 < 2 ^ Z.pos p) as Hpow by (apply Z.pow_pos_nonneg; lia).
      pose proof (round_half_even_nearest (Z.pos m * 10000) (2 ^ Z.pos p) Hpow).
      lia.
Qed.




(** X10: the [time-seconds] of a successful answer, read back as a fixed
    point numeral, is the elapsed time between the two instants to the
    nearest ten-thousandth of a second, with its sign. *)
Theorem time_seconds_reads_back self app g start_time w df :
  Successful self app g df →
  instants_ok start_time w = true →
  ∃ r seconds n,
    fst (_create_anomaly_response self app g start_time w) = Return r
    ∧ body r !! "time-seconds" = Some (JStr seconds)
    ∧ Numeral.read_fixed4 seconds = Some (sign_bit (elapsed start_time w), n)
    ∧ nearest_ten_thousandth (elapsed start_time w) n.
Proof.
  intros Hok Hclock.
  destruct (format_4f_reads_back (elapsed start_time w)
              (elapsed_finite _ _ Hclock)) as (n & Hread & _ & Hnear).
  exists (envelope df (elapsed start_time w)),
         (PyFloat.format_4f (elapsed start_time w)), n.
  split; [by apply create_success|].
  split; [apply envelope_seconds|]. by split.
Qed.

Lemma time_seconds_reads_back_witness :
  Successful Sample.view {| model := Sample.detector |} Sample.globals
    Sample.table
  ∧ instants_ok None Sample.world = true
  ∧ ∃ r seconds n,
      fst (_create_anomaly_response Sample.view
             {| model := Sample.detector |} Sample.globals None Sample.world)
      = Return r
      ∧ body r !! "time-seconds" = Some (JStr seconds)
      ∧ Numeral.read_fixed4 seconds
        = Some (sign_bit (elapsed None Sample.world), n)
      ∧ nearest_ten_thousandth (elapsed None Sample.world) n.
Proof.
  split; [exact sample_successful|]. split; [reflexivity|].
  apply (time_seconds_reads_back Sample.view {| model := Sample.detector |}
           Sample.globals None Sample.world Sample.table).
  - exact sample_successful.
  - reflexivity.
Defined.

Example read_back_quarter :
  Numeral.read_fixed4 "0.2500" = Some (false, 2500)
  ∧ Numeral.read_fixed4 "-12.0312" = Some (true, 120312)
  ∧ Numeral.read_fixed4 "inf" = None
  ∧ Numeral.read_fixed4 "0.25" = None.
Proof. repeat split; reflexivity. Qed.

(** * A clock that does not go backwards *)
Section SubSign.

Variables prec emax : Z.
Hypothesis Hprec : 0 < prec.
Hypothesis Hemax : prec < emax.

(** Rounding keeps the sign it is given. *)
Lemma binary_round_aux_sign s m e l :
  PyFloat.is_finite (binary_round_aux prec emax s m e l) = true →
  sign_bit (binary_round_aux prec emax s m e l) = s.
Proof.
  unfold binary_round_aux.
  destruct (shr_fexp prec emax m e l) as [rec e'].
  destruct (shr_fexp prec emax _ e' loc_Exact) as [rec' e''].
  destruct (shr_m rec'); [reflexivity| |discriminate].
  destruct (e'' <=? emax - prec); [reflexivity | discriminate].
Qed.

Lemma binary_round_sign s m e :
  PyFloat.is_finite (binary_round prec emax s m e) = true →
  sign_bit (binary_round prec emax s m e) = s.
Proof.
  unfold binary_round. destruct (shl_align m e _) as [mz ez].
  apply binary_round_aux_sign.
Qed.

(** Aligned to an exponent that is not larger, a mantissa is multiplied by
    the power of two in between. *)
Lemma shl_align_fst m e ez :
  ez ≤ e → Zpos (fst (shl_align m e ez)) = Zpos m * 2 ^ (e - ez).
Proof.
  intros Hle. pose proof (shl_align_spec m e ez) as H.
  unfold shl_align in *. destruct (ez - e) as [|d|d] eqn:E; cbn [fst] in *.
  - replace (e - ez) with 0 by lia. lia.
  - lia.
  - destruct H as [_ ->]. reflexivity.
Qed.

(** A number of the format above the smallest exponent has a full
    mantissa. *)
Lemma bounded_normal m e :
  bounded prec emax m e = true →
  emin prec emax ≤ e
  ∧ (emin prec emax < e → 2 ^ prec ≤ 2 * Zpos m).
Proof.
  unfold bounded, canonical_mantissa, fexp.
  intros [Hc _]%andb_true_iff. apply Z.eqb_eq in Hc.
  split; [lia|]. intros He.
  assert (Zpos (digits2_pos m) = prec) as Hd by lia.
  rewrite digits2_pos_size in Hd.
  pose proof (Pos.size_le m) as Hle.
  apply Pos2Z.pos_le_pos in Hle. rewrite Pos2Z.inj_pow, Hd in Hle.
  exact Hle.
Qed.

(** Between two positive numbers of the format, [<=] on floats is [<=] on
    the mantissas once they are aligned. *)
Lemma SFleb_aligned my ey mx ex :
  bounded prec emax my ey = true →
  bounded prec emax mx ex = true →
  SFleb (S754_finite false my ey) (S754_finite false mx ex) = true →
  Zpos (fst (shl_align my ey (Z.min ex ey)))
  ≤ Zpos (fst (shl_align mx ex (Z.min ex ey))).
Proof.
  intros Hy Hx. unfold SFleb, SFcompare.
  destruct (bounded_below prec emax my ey Hy) as [Hmy _].
  destruct (bounded_normal my ey Hy) as [Hey _].
  destruct (bounded_normal mx ex Hx) as [_ Hnx].
  rewrite !shl_align_fst by lia.
  destruct (Z.compare_spec ey ex) as [Heq|Hlt|Hgt]; [| |discriminate].
  - subst ey. rewrite Z.min_id, Z.sub_diag.
    rewrite Pos.compare_cont_spec. cbn [Pos.switch_Eq].
    destruct (Pos.compare_spec my mx); try discriminate; intros _; lia.
  - intros _. rewrite Z.min_r by lia. rewrite Z.sub_diag.
    assert (2 ^ 1 ≤ 2 ^ (ex - ey)) by (apply Z.pow_le_mono_r; lia).
    specialize (Hnx ltac:(lia)). nia.
Qed.

(** The difference of two readings of such a clock, the later minus the
    earlier, has its sign bit clear. *)
Lemma SFsub_monotone_sign now t0 :
  Binary.nonneg_finite prec emax now = true →
  Binary.nonneg_finite prec emax t0 = true →
  sign_bit now = false → sign_bit t0 = false →
  SFleb t0 now = true →
  sign_bit (SFsub prec emax now t0) = false.
Proof.
  intros Hnow Ht0 Hsn Hst Hle.
  pose proof (SFsub_nonneg_finite prec emax Hprec Hemax now t0 Hnow Ht0)
    as Hfin.
  destruct now as [sn|sn| |sn mn en]; try discriminate;
    destruct t0 as [st|st| |st mt et]; try discriminate;
    cbn [sign_bit] in Hsn, Hst; subst; try discriminate.
  - reflexivity.
  - reflexivity.
  - cbn [Binary.nonneg_finite] in Hnow, Ht0.
    pose proof (SFleb_aligned mt et mn en Ht0 Hnow Hle) as Hal.
    revert Hfin. cbn [SFsub]. cbv zeta. cbn [cond_Zopp].
    destruct (Z.pos (fst (shl_align mn en (Z.min en et)))
              - Z.pos (fst (shl_align mt et (Z.min en et))))
      as [|d|d] eqn:E; cbn [binary_normalize].
    + reflexivity.
    + apply binary_round_sign.
    + lia.
Qed.

End SubSign.

Lemma elapsed_sign_clear start_time w :
  instants_monotone start_time w = true →
  sign_bit (elapsed start_time w) = false
  ∧ instants_ok start_time w = true.
Proof.
  unfold instants_monotone, instants_ok, elapsed.
  destruct (started start_time w) as [t0 w0].
  intros [[[[Ht0 Hnow]%andb_true_iff Hs0%negb_true_iff]%andb_true_iff
            Hsn%negb_true_iff]%andb_true_iff Hle]%andb_true_iff.
  split; [|by rewrite Ht0, Hnow].
  by apply (SFsub_monotone_sign PyFloat.prec PyFloat.emax).
Qed.

(** X11: when the two instants are readings of a clock that does not go
    backwards, the [time-seconds] of a successful answer is the numeral of a
    non-negative number: it reads back with no minus sign. *)
Theorem time_seconds_not_negative self app g start_time w df :
  Successful self app g df →
  instants_monotone start_time w = true →
  ∃ r seconds n,
    fst (_create_anomaly_response self app g start_time w) = Return r
    ∧ body r !! "time-seconds" = Some (JStr seconds)
    ∧ Numeral.read_fixed4 seconds = Some (false, n)
    ∧ 0 ≤ n.
Proof.
  intros Hok Hmono.
  destruct (elapsed_sign_clear _ _ Hmono) as [Hsign Hclock].
  destruct (format_4f_reads_back (elapsed start_time w)
              (elapsed_finite _ _ Hclock)) as (n & Hread & Hn & _).
  rewrite Hsign in Hread.
  exists (envelope df (elapsed start_time w)),
         (PyFloat.format_4f (elapsed start_time w)), n.
  split; [by apply create_success|].
  split; [apply envelope_seconds|]. by split.
Qed.

Lemma time_seconds_not_negative_witness :
  Successful Sample.view {| model := Sample.detector |} Sample.globals
    Sample.table
  ∧ instants_monotone None Sample.world = true
  ∧ ∃ r seconds n,
      fst (_create_anomaly_response Sample.view
             {| model := Sample.detector |} Sample.globals None Sample.world)
      = Return r
      ∧ body r !! "time-seconds" = Some (JStr seconds)
      ∧ Numeral.read_fixed4 seconds = Some (false, n)
      ∧ 0 ≤ n.
Proof.
  split; [exact sample_successful|]. split; [reflexivity|].
  apply (time_seconds_not_negative Sample.view
           {| model := Sample.detector |} Sample.globals None Sample.world
           Sample.table).
  - exact sample_successful.
  - reflexivity.
Defined.

(** * The declared response model *)

(** X12: the model both methods declare for their 200 answer has the one
    field [output]; the body of a successful answer has no such member, and
    neither of its two members is a field of the declared model. *)
Theorem success_body_is_not_the_declared_model self app g start_time w df :
  Successful self app g df →
  ∃ r,
    fst (_create_anomaly_response self app g start_time w) = Return r
    ∧ status r = 200
    ∧ ∀ declared,
        declared = Docs.post_response_model
        ∨ declared = Docs.get_response_model →
        (∀ key, key ∈ map fst (Docs.model_fields declared) →
                body r !! key = None)
        ∧ (∀ key, is_Some (body r !! key) →
                  key ∉ map fst (Docs.model_fields declared)).
Proof.
  intros Hok. exists (envelope df (elapsed start_time w)).
  split; [by apply create_success|]. split; [reflexivity|].
  assert (∀ key, key ∈ map fst (Docs.model_fields Docs.API_MODEL_OUTPUT_POST)
                 → body (envelope df (elapsed start_time w)) !! key = None)
    as Hnone.
  { intros key Hkey. cbn in Hkey. apply list_elem_of_singleton in Hkey as ->.
    unfold envelope. cbn [body].
    rewrite !lookup_insert_ne by done. apply lookup_empty. }
  intros declared [-> | ->]; (split; [exact Hnone|]);
    intros key [v Hv] Hkey; apply Hnone in Hkey; congruence.
Qed.

Lemma success_body_is_not_the_declared_model_witness :
  Successful Sample.view {| model := Sample.detector |} Sample.globals
    Sample.table
  ∧ ∃ r,
      fst (_create_anomaly_response Sample.view
             {| model := Sample.detector |} Sample.globals None Sample.world)
      = Return r
      ∧ status r = 200
      ∧ ∀ declared,
          declared = Docs.post_response_model
          ∨ declared = Docs.get_response_model →
          (∀ key, key ∈ map fst (Docs.model_fields declared) →
                  body r !! key = None)
          ∧ (∀ key, is_Some (body r !! key) →
                    key ∉ map fst (Docs.model_fields declared)).
Proof.
  split; [exact sample_successful|].
  apply (success_body_is_not_the_declared_model Sample.view
           {| model := Sample.detector |} Sample.globals None Sample.world
           Sample.table).
  exact sample_successful.
Defined.
